(** * A multi-agent news workflow: routing, session state and transport replies

    Shallow embedding of the LangGraph tutorial servers.  The multi-agent
    server ([multi-agent.ts] and its compiled [dist/multi-agent.js]) wires two
    research agents, a summarizer and a tool node into a state graph whose
    control flow is decided by [router]; the single-agent servers decide
    with [shouldContinue] and build their prompt in [callModel].

    Strings stand for JavaScript strings (as UTF-8 bytes), [option] for a
    value that may be [undefined], and [Completion] for an expression that
    either yields a value or throws. *)

From Stdlib Require Import Ascii.
From stdpp Require Import base option list strings gmap relations.

Set Warnings "-register-all".

Local Open Scope string_scope.
Local Open Scope list_scope.
Local Open Scope nat_scope.

(** ** Completions: a value, or a thrown error with its message *)

Inductive Completion (A : Type) : Type :=
  | Normal (a : A)
  | Throw (e : string).
Arguments Normal {A} a.
Arguments Throw {A} e.

Global Instance Completion_ret : MRet Completion := fun _ a => Normal a.

Global Instance Completion_bind : MBind Completion := fun _ _ k c =>
  match c with
  | Normal a => k a
  | Throw e => Throw e
  end.

(** [try { c } catch (e) { h }] *)
Definition try_catch {A} (c : Completion A) (h : string -> A) : A :=
  match c with
  | Normal a => a
  | Throw e => h e
  end.

(** ** Messages *)

(** The class of a message object (what [constructor.name] reports). *)
Inductive MessageKind := HumanMessage | AIMessage | SystemMessage | ToolMessage.

Global Instance MessageKind_eq_dec : EqDecision MessageKind.
Proof. solve_decision. Defined.

Record ToolCall := {
  tc_id : string;
  tc_name : string;
  tc_args : string
}.

(** [MessageContent]: a string, or an array of content blocks. *)
Inductive MessageContent :=
  | Text (s : string)
  | Blocks (bs : list string).

Record BaseMessage := {
  kind : MessageKind;
  content : MessageContent;
  name : option string;
  tool_calls : option (list ToolCall);
  tool_call_id : option string
}.

(** [new HumanMessage(text)] *)
Definition new_HumanMessage (text : string) : BaseMessage :=
  {| kind := HumanMessage; content := Text text; name := None;
     tool_calls := None; tool_call_id := None |}.

(** [new SystemMessage(text)] *)
Definition new_SystemMessage (text : string) : BaseMessage :=
  {| kind := SystemMessage; content := Text text; name := None;
     tool_calls := None; tool_call_id := None |}.

(** [new HumanMessage({ ...result, name: name })]: the fields of [result]
    that a human message has are kept, [name] is overridden; a human
    message has no [tool_calls] property. *)
Definition HumanMessage_from (result : BaseMessage) (agent_name : string) : BaseMessage :=
  {| kind := HumanMessage; content := content result; name := Some agent_name;
     tool_calls := None; tool_call_id := None |}.

(** [m?.tool_calls && m.tool_calls.length > 0] on a possibly missing message *)
Definition has_tool_calls (m : option BaseMessage) : bool :=
  match m with
  | Some m =>
      match tool_calls m with
      | Some calls => 0 <? length calls
      | None => false
      end
  | None => false
  end.

(** [msg.name === s] *)
Definition name_is (msg : BaseMessage) (s : string) : bool :=
  match name msg with
  | Some n => String.eqb n s
  | None => false
  end.

(** ** Session state: [AgentState = Annotation.Root({ messages, sender })] *)

Record AgentState := {
  messages : list BaseMessage;
  sender : string
}.

(** What a node returns: a partial state.  A missing key is [None]. *)
Record Update := {
  u_messages : option (list BaseMessage);
  u_sender : option string
}.

(** [reducer: (x, y) => x.concat(y)] *)
Definition messages_reducer (x y : list BaseMessage) : list BaseMessage := x ++ y.

(** [reducer: (x, y) => y ?? x ?? "user"] *)
Definition sender_reducer (x y : option string) : string :=
  match y with
  | Some v => v
  | None => match x with Some v => v | None => "user" end
  end.

(** [default: () => "user"]; the messages channel starts empty. *)
Definition initial_state : AgentState := {| messages := []; sender := "user" |}.

(** A channel is reduced only when the update writes to it. *)
Definition apply_update (s : AgentState) (u : Update) : AgentState :=
  {| messages := match u_messages u with
                 | Some y => messages_reducer (messages s) y
                 | None => messages s
                 end;
     sender := match u_sender u with
               | Some y => sender_reducer (Some (sender s)) (Some y)
               | None => sender s
               end |}.

(** ** External capabilities *)

(** A search tool: its registered name and its call, which may throw. *)
Record StructuredTool := {
  tool_name : string;
  tool_invoke : string -> Completion string
}.

(** The zod response schemas; only their identity matters here. *)
Inductive ResponseSchema :=
  | ResearcherResponseSchema
  | SummarizerResponseSchema
  | NewsAnalysisSchema.

Record ResponseFormat := {
  rf_type : string;
  rf_name : string;
  rf_strict : bool;
  rf_schema : ResponseSchema
}.

(** [{ tools: formattedTools, response_format?: ... }] *)
Record BindConfig := {
  bc_tools : list string;
  bc_response_format : option ResponseFormat
}.

(** The chat model: bound configuration and prompt in, one message out, or
    a failure (rate limit, network, malformed request). *)
Definition ChatOpenAI : Type := BindConfig -> list BaseMessage -> Completion BaseMessage.

(** What [createAgent] returns: invoked on the state, yields the reply. *)
Definition Runnable : Type := AgentState -> Completion BaseMessage.

Definition nl : string := String "010"%char EmptyString.
Definition dq : string := String "034"%char EmptyString.

(** [Array.prototype.join] on strings *)
Fixpoint join (sep : string) (l : list string) : string :=
  match l with
  | [] => EmptyString
  | [x] => x
  | x :: rest => x +:+ sep +:+ join sep rest
  end.

(** [convertToOpenAITool(t)]: the descriptor is identified by the tool name. *)
Definition convertToOpenAITool (t : StructuredTool) : string := tool_name t.

(** The system template of [createAgent] after
    [prompt.partial({ system_message, tool_names })]. *)
Definition systemPrompt (toolNames systemMessage : string)
    (responseSchema : option ResponseSchema) : string :=
  "You are a helpful AI assistant, collaborating with other assistants." +:+
  " Use the provided tools to progress towards answering the question." +:+
  " If you are unable to fully answer, that's OK, another assistant with different tools " +:+
  " will help where you left off. Execute what you can to make progress." +:+
  " If you or any of the other assistants have the final answer or deliverable," +:+
  " prefix your response with FINAL ANSWER so the team knows to stop." +:+
  " You have access to the following tools: " +:+ toolNames +:+ "." +:+ nl +:+
  systemMessage +:+
  match responseSchema with
  | Some _ =>
      nl +:+ nl +:+ "You MUST respond in JSON format following this schema. Think through your reasoning step-by-step in the reasoning section before taking action."
  | None => EmptyString
  end.

(** [ChatPromptTemplate.fromMessages([["system", systemPrompt],
    new MessagesPlaceholder("messages")])] applied to a history. *)
Definition format_prompt (system_text : string) (history : list BaseMessage) : list BaseMessage :=
  new_SystemMessage system_text :: history.

Definition createAgent (llm : ChatOpenAI) (tools : list StructuredTool)
    (systemMessage : string) (responseSchema : option ResponseSchema) : Runnable :=
  let toolNames := join ", " (map tool_name tools) in
  let formattedTools := map convertToOpenAITool tools in
  let bindConfig :=
    {| bc_tools := formattedTools;
       bc_response_format :=
         match responseSchema with
         | Some schema =>
             Some {| rf_type := "json_schema"; rf_name := "agent_response";
                     rf_strict := true; rf_schema := schema |}
         | None => None
         end |} in
  fun state =>
    llm bindConfig (format_prompt (systemPrompt toolNames systemMessage responseSchema)
                                  (messages state)).

(** ** Agent nodes *)

(** [runAgentNode]: the console output (including the guarded
    [JSON.parse] of the reply made only for logging) has no effect on the
    returned update and is left out. *)
Definition runAgentNode (state : AgentState) (agent : Runnable) (agent_name : string)
    : Completion Update :=
  result ← agent state;
  let result :=
    if negb (has_tool_calls (Some result))
    then HumanMessage_from result agent_name
    else result in
  mret {| u_messages := Some [result]; u_sender := Some agent_name |}.

Definition researcher_systemMessage : string :=
  "You should provide accurate information for the summarizer to use. Analyze the query, determine the best search strategy, and gather comprehensive information.".

Definition summarizer_systemMessage : string :=
  "You are a news summarizer. Your job is to:" +:+ nl +:+ nl +:+
  "1. Analyze information gathered by the research agents" +:+ nl +:+
  "2. Identify key themes and patterns in the information" +:+ nl +:+
  "3. Create a comprehensive, well-structured summary with proper formatting" +:+ nl +:+
  "4. Highlight the most important developments and trends" +:+ nl +:+
  "5. Provide insights and context about the topic" +:+ nl +:+
  "6. Keep the response informative but conversational" +:+ nl +:+
  "7. Do NOT include " +:+ dq +:+ "FINAL ANSWER" +:+ dq +:+ " in your response" +:+ nl +:+ nl +:+
  "Think through your synthesis approach in the reasoning section, then provide a structured summary with headline, overview, key points, insights, and conclusion.".

(** [ToolNode]: one [ToolMessage] per pending call of the last message, in
    order; a failing or unknown tool becomes an error message for that
    call.  The node writes [messages] only. *)
Definition run_tool_call (tools : list StructuredTool) (call : ToolCall) : BaseMessage :=
  let output :=
    match List.find (fun t => String.eqb (tool_name t) (tc_name call)) tools with
    | Some t => tool_invoke t (tc_args call)
    | None => Throw ("Tool " +:+ dq +:+ tc_name call +:+ dq +:+ " not found.")
    end in
  {| kind := ToolMessage;
     content := Text (try_catch output
                        (fun e => "Error: " +:+ e +:+ nl +:+ " Please fix your mistakes."));
     name := Some (tc_name call);
     tool_calls := None;
     tool_call_id := Some (tc_id call) |}.

Definition ToolNode (tools : list StructuredTool) (state : AgentState) : Completion Update :=
  match last (messages state) with
  | Some m =>
      match kind m, tool_calls m with
      | AIMessage, Some calls =>
          mret {| u_messages := Some (map (run_tool_call tools) calls); u_sender := None |}
      | _, _ => Throw "ToolNode only accepts AIMessages as input."
      end
  | None => Throw "ToolNode only accepts AIMessages as input."
  end.

(** ** The router *)

Definition router (state : AgentState) : string :=
  let messages := messages state in
  let lastMessage := last messages in
  if has_tool_calls lastMessage then "call_tool"
  else if String.eqb (sender state) "Summarizer" then "end"
  else
    let researchMessages :=
      List.filter (fun msg => name_is msg "SerpResearcher" || name_is msg "TavResearcher")
                  messages in
    if 2 <=? length researchMessages then "summarize"
    else "continue".

(** ** The compiled graph *)

Definition START : string := "__start__".
Definition END : string := "__end__".

(** Own-property lookup in an object literal of the source. *)
Fixpoint lookup_key {A} (k : string) (obj : list (string * A)) : option A :=
  match obj with
  | [] => None
  | (k', v) :: rest => if String.eqb k' k then Some v else lookup_key k rest
  end.

(** A conditional edge: the path function and the map from its results to
    node names. *)
Record Branch := {
  path : AgentState -> string;
  pathMap : list (string * string)
}.

Section Workflow.

Variable llm : ChatOpenAI.
Variables getNews tavNews : StructuredTool.
(** The step cap of the graph runtime; the source passes none to
    [graph.invoke], so the runtime's own default applies. *)
Variable recursionLimit : nat.

Definition serpAgent : Runnable :=
  createAgent llm [getNews] researcher_systemMessage (Some ResearcherResponseSchema).
Definition tavAgent : Runnable :=
  createAgent llm [tavNews] researcher_systemMessage (Some ResearcherResponseSchema).
Definition summarizerAgent : Runnable :=
  createAgent llm [] summarizer_systemMessage (Some SummarizerResponseSchema).

Definition serpNode (state : AgentState) : Completion Update :=
  runAgentNode state serpAgent "SerpResearcher".
Definition tavNode (state : AgentState) : Completion Update :=
  runAgentNode state tavAgent "TavResearcher".
Definition summarizerNode (state : AgentState) : Completion Update :=
  runAgentNode state summarizerAgent "Summarizer".

Definition tools : list StructuredTool := [tavNews; getNews].
Definition toolNode : AgentState -> Completion Update := ToolNode tools.

(** [addNode] *)
Definition nodes : list (string * (AgentState -> Completion Update)) :=
  [ ("SerpResearcher", serpNode);
    ("TavResearcher", tavNode);
    ("Summarizer", summarizerNode);
    ("call_tool", toolNode) ].

(** [addConditionalEdges] *)
Definition branches : list (string * Branch) :=
  [ ("SerpResearcher",
     {| path := router;
        pathMap := [ ("continue", "TavResearcher"); ("call_tool", "call_tool");
                     ("summarize", "Summarizer"); ("end", END) ] |});
    ("TavResearcher",
     {| path := router;
        pathMap := [ ("continue", "SerpResearcher"); ("call_tool", "call_tool");
                     ("summarize", "Summarizer"); ("end", END) ] |});
    ("call_tool",
     {| path := fun x => sender x;
        pathMap := [ ("SerpResearcher", "SerpResearcher");
                     ("TavResearcher", "TavResearcher") ] |});
    ("Summarizer",
     {| path := router;
        pathMap := [ ("end", END) ] |}) ].

(** [addEdge(START, "SerpResearcher")] *)
Definition entry_point : string := "SerpResearcher".

(** The node chosen after [node] has run and left the state [s]: the
    branch result looked up in the path map; a result without an entry
    aborts the run. *)
Definition next_node (node : string) (s : AgentState) : Completion string :=
  match lookup_key node branches with
  | Some b =>
      match lookup_key (path b s) (pathMap b) with
      | Some dest => mret dest
      | None => Throw "Branch condition returned unknown or null destination"
      end
  | None => mret END
  end.

(** One step of the runtime: run the node, reduce its update into the
    state, pick the next node. *)
Definition graph_step (node : string) (s : AgentState) : Completion (string * AgentState) :=
  match lookup_key node nodes with
  | Some f =>
      u ← f s;
      let s' := apply_update s u in
      dest ← next_node node s';
      mret (dest, s')
  | None => Throw "unknown node"
  end.

(** The runtime loop from [node] under the step cap [limit].  The
    runtime spends one step of the cap on every node execution and one more
    to find that nothing is left to run, so a run of [k] node executions
    ends normally only under a cap above [k]; at the cap the run is cut off
    with the recursion error, the state reached so far being
    checkpointed.  The first component is the last state that was
    checkpointed. *)
Fixpoint run (limit : nat) (node : string) (s : AgentState)
    : AgentState * Completion AgentState :=
  match limit with
  | 0 => (s, Throw "GraphRecursionError")
  | S limit' =>
      if String.eqb node END then (s, Normal s)
      else
        match graph_step node s with
        | Normal (dest, s') => run limit' dest s'
        | Throw e => (s, Throw e)
        end
  end.

(** [graph.invoke(input, { configurable: { thread_id } })] with the
    [MemorySaver] checkpointer: the thread's saved state is loaded (a
    fresh thread starts from the channel defaults), the input is reduced
    into it, the graph runs from the entry point, and the thread keeps
    the last checkpoint. *)
Definition graph_invoke (memory : gmap string AgentState) (thread_id : string)
    (input : Update) : gmap string AgentState * Completion AgentState :=
  let loaded := default initial_state (memory !! thread_id) in
  let '(saved, output) := run recursionLimit entry_point (apply_update loaded input) in
  (<[thread_id := saved]> memory, output).

End Workflow.

(** ** JSON values and [JSON.parse] *)

(** A parsed JSON value.  A number keeps its source lexeme; object members
    are kept in source order. *)
Inductive JSON :=
  | JNull
  | JBool (b : bool)
  | JNumber (lexeme : string)
  | JString (s : string)
  | JArray (items : list JSON)
  | JObject (members : list (string * JSON)).

Module JSONText.

Definition code (c : ascii) : N := N_of_ascii c.

Definition is_ws (c : ascii) : bool :=
  let n := code c in
  (n =? 32)%N || (n =? 9)%N || (n =? 10)%N || (n =? 13)%N.

Definition is_digit (c : ascii) : bool :=
  let n := code c in (48 <=? n)%N && (n <=? 57)%N.

Definition hex_value (c : ascii) : option N :=
  let n := code c in
  if (48 <=? n)%N && (n <=? 57)%N then Some (n - 48)%N
  else if (65 <=? n)%N && (n <=? 70)%N then Some (n - 55)%N
  else if (97 <=? n)%N && (n <=? 102)%N then Some (n - 87)%N
  else None.

Fixpoint skip_ws (s : string) : string :=
  match s with
  | String c rest => if is_ws c then skip_ws rest else s
  | EmptyString => s
  end.

(** [strip_prefix p s]: the rest of [s] after the prefix [p]. *)
Fixpoint strip_prefix (p s : string) : option string :=
  match p, s with
  | EmptyString, _ => Some s
  | String a p', String b s' => if Ascii.eqb a b then strip_prefix p' s' else None
  | String _ _, EmptyString => None
  end.

(** The longest run of digits at the head of [s]. *)
Fixpoint digits (s : string) : string * string :=
  match s with
  | String c rest =>
      if is_digit c then let '(d, r) := digits rest in (String c d, r)
      else (EmptyString, s)
  | EmptyString => (EmptyString, s)
  end.

(** number = [-] int [frac] [exp], int = 0 | digit1-9 digits *)
Definition number (s : string) : option (string * string) :=
  let '(sign, s1) :=
    match s with
    | String "-" rest => ("-", rest)
    | _ => (EmptyString, s)
    end in
  let '(int, s2) := digits s1 in
  match int with
  | EmptyString => None
  | String "0" (String _ _) => None
  | _ =>
      let frac :=
        match s2 with
        | String "." rest =>
            let '(f, s3) := digits rest in
            match f with
            | EmptyString => None
            | _ => Some ("." +:+ f, s3)
            end
        | _ => Some (EmptyString, s2)
        end in
      match frac with
      | None => None
      | Some (f, s3) =>
          let exp :=
            match s3 with
            | String e rest =>
                if Ascii.eqb e "e" || Ascii.eqb e "E" then
                  let '(esign, s4) :=
                    match rest with
                    | String "+" r => ("+", r)
                    | String "-" r => ("-", r)
                    | _ => (EmptyString, rest)
                    end in
                  let '(d, s5) := digits s4 in
                  match d with
                  | EmptyString => None
                  | _ => Some (String e esign +:+ d, s5)
                  end
                else Some (EmptyString, s3)
            | EmptyString => Some (EmptyString, s3)
            end in
          match exp with
          | None => None
          | Some (e, s5) => Some (sign +:+ int +:+ f +:+ e, s5)
          end
      end
  end.

Definition byte (n : N) : string := String (ascii_of_N n) EmptyString.

(** UTF-8 bytes of a code point (a lone surrogate is encoded like any
    other three-byte code point). *)
Definition utf8 (cp : N) : string :=
  if (cp <? 128)%N then byte cp
  else if (cp <? 2048)%N then
    byte (192 + cp / 64) +:+ byte (128 + cp mod 64)
  else if (cp <? 65536)%N then
    byte (224 + cp / 4096) +:+ byte (128 + (cp / 64) mod 64) +:+ byte (128 + cp mod 64)
  else
    byte (240 + cp / 262144) +:+ byte (128 + (cp / 4096) mod 64) +:+
    byte (128 + (cp / 64) mod 64) +:+ byte (128 + cp mod 64).

(** Four hex digits at the head of [s]. *)
Definition hex4 (s : string) : option (N * string) :=
  match s with
  | String a (String b (String c (String d rest))) =>
      match hex_value a, hex_value b, hex_value c, hex_value d with
      | Some x, Some y, Some z, Some w => Some ((((x * 16 + y) * 16 + z) * 16 + w)%N, rest)
      | _, _, _, _ => None
      end
  | _ => None
  end.

Definition is_high_surrogate (u : N) : bool := (55296 <=? u)%N && (u <=? 56319)%N.
Definition is_low_surrogate (u : N) : bool := (56320 <=? u)%N && (u <=? 57343)%N.

(** The characters of a string literal after its opening quote, up to
    and including the closing quote. *)
Fixpoint string_body (fuel : nat) (s : string) : option (string * string) :=
  match fuel with
  | 0 => None
  | S fuel =>
      match s with
      | EmptyString => None
      | String c rest =>
          if Ascii.eqb c "034" then Some (EmptyString, rest)
          else if Ascii.eqb c "\" then
            match rest with
            | String e rest' =>
                let simple (out : N) :=
                  match string_body fuel rest' with
                  | Some (body, r) => Some (byte out +:+ body, r)
                  | None => None
                  end in
                if Ascii.eqb e "034" then simple 34%N
                else if Ascii.eqb e "\" then simple 92%N
                else if Ascii.eqb e "/" then simple 47%N
                else if Ascii.eqb e "b" then simple 8%N
                else if Ascii.eqb e "f" then simple 12%N
                else if Ascii.eqb e "n" then simple 10%N
                else if Ascii.eqb e "r" then simple 13%N
                else if Ascii.eqb e "t" then simple 9%N
                else if Ascii.eqb e "u" then
                  match hex4 rest' with
                  | Some (u, r1) =>
                      let '(cp, r2) :=
                        match (if is_high_surrogate u then strip_prefix "\u" r1 else None) with
                        | Some r1' =>
                            match hex4 r1' with
                            | Some (v, r1'') =>
                                if is_low_surrogate v
                                then (65536 + (u - 55296) * 1024 + (v - 56320), r1'')%N
                                else (u, r1)
                            | None => (u, r1)
                            end
                        | None => (u, r1)
                        end in
                      match string_body fuel r2 with
                      | Some (body, r) => Some (utf8 cp +:+ body, r)
                      | None => None
                      end
                  | None => None
                  end
                else None
            | EmptyString => None
            end
          else if (code c <? 32)%N then None
          else
            match string_body fuel rest with
            | Some (body, r) => Some (String c body, r)
            | None => None
            end
      end
  end.

(** value, and the tails of an array ([elements]) and of an object
    ([members]) after their first item. *)
Fixpoint value (fuel : nat) (s : string) : option (JSON * string) :=
  match fuel with
  | 0 => None
  | S fuel =>
      match skip_ws s with
      | EmptyString => None
      | String c rest as s' =>
          if Ascii.eqb c "{" then
            match skip_ws rest with
            | String "}" r => Some (JObject [], r)
            | r => match members fuel r with
                   | Some (ms, r') => Some (JObject ms, r')
                   | None => None
                   end
            end
          else if Ascii.eqb c "[" then
            match skip_ws rest with
            | String "]" r => Some (JArray [], r)
            | r => match elements fuel r with
                   | Some (vs, r') => Some (JArray vs, r')
                   | None => None
                   end
            end
          else if Ascii.eqb c "034" then
            match string_body (String.length rest + 1) rest with
            | Some (str, r) => Some (JString str, r)
            | None => None
            end
          else
            match strip_prefix "null" s', strip_prefix "true" s', strip_prefix "false" s' with
            | Some r, _, _ => Some (JNull, r)
            | _, Some r, _ => Some (JBool true, r)
            | _, _, Some r => Some (JBool false, r)
            | None, None, None =>
                match number s' with
                | Some (lexeme, r) => Some (JNumber lexeme, r)
                | None => None
                end
            end
      end
  end
with elements (fuel : nat) (s : string) : option (list JSON * string) :=
  match fuel with
  | 0 => None
  | S fuel =>
      match value fuel s with
      | Some (v, r) =>
          match skip_ws r with
          | String "]" r' => Some ([v], r')
          | String "," r' =>
              match elements fuel r' with
              | Some (vs, r'') => Some (v :: vs, r'')
              | None => None
              end
          | _ => None
          end
      | None => None
      end
  end
with members (fuel : nat) (s : string) : option (list (string * JSON) * string) :=
  match fuel with
  | 0 => None
  | S fuel =>
      match skip_ws s with
      | String "034" r0 =>
          match string_body (String.length r0 + 1) r0 with
          | Some (key, r1) =>
              match skip_ws r1 with
              | String ":" r2 =>
                  match value fuel r2 with
                  | Some (v, r3) =>
                      match skip_ws r3 with
                      | String "}" r4 => Some ([(key, v)], r4)
                      | String "," r4 =>
                          match members fuel r4 with
                          | Some (ms, r5) => Some ((key, v) :: ms, r5)
                          | None => None
                          end
                      | _ => None
                      end
                  | None => None
                  end
              | _ => None
              end
          | None => None
          end
      | _ => None
      end
  end.

End JSONText.

(** [JSON.parse(text)]: one value between optional white space, or a
    [SyntaxError].  Every call of the parser consumes a character before
    the next but one, so twice the length of the text is fuel enough. *)
Definition JSON_parse (text : string) : Completion JSON :=
  match JSONText.value (2 * String.length text + 2) text with
  | Some (v, rest) =>
      match JSONText.skip_ws rest with
      | EmptyString => Normal v
      | String _ _ => Throw "SyntaxError"
      end
  | None => Throw "SyntaxError"
  end.

(** ** JavaScript operations on parsed values *)

(** The two conversions of a number that depend on its floating-point
    value, given its lexeme: [String(n)] and [n === 0]. *)
Record NumberOps := {
  Number_toString : string -> string;
  Number_isZero : string -> bool
}.

(** [s] is a non-empty string (a truthy string) *)
Definition nonempty (s : string) : bool :=
  match s with
  | EmptyString => false
  | String _ _ => true
  end.

(** The last member with the given key: when a name is repeated in a JSON
    text, the later value replaces the earlier one. *)
Definition own_property (key : string) (members : list (string * JSON)) : option JSON :=
  lookup_key key (rev members).

(** [v.key] for the keys the servers read, none of which is defined on a
    built-in prototype: reading from [undefined] or [null] throws, a
    primitive or an array has no such property. *)
Definition get_member (v : option JSON) (key : string) : Completion (option JSON) :=
  match v with
  | None => Throw ("TypeError: Cannot read properties of undefined (reading '" +:+ key +:+ "')")
  | Some JNull => Throw ("TypeError: Cannot read properties of null (reading '" +:+ key +:+ "')")
  | Some (JObject members) => Normal (own_property key members)
  | Some _ => Normal None
  end.

(** [v === s] for a string literal [s] *)
Definition strict_equals (v : option JSON) (s : string) : bool :=
  match v with
  | Some (JString x) => String.eqb x s
  | _ => false
  end.

(** The code points of a string held as UTF-8: a new item starts at every
    byte that is not a continuation byte. *)
Fixpoint code_points (s : string) : list string :=
  match s with
  | EmptyString => []
  | String c rest =>
      match code_points rest with
      | item :: items =>
          match rest with
          | String c' _ =>
              let n' := N_of_ascii c' in
              if (128 <=? n')%N && (n' <? 192)%N
              then String c item :: items
              else String c EmptyString :: item :: items
          | EmptyString => String c EmptyString :: item :: items
          end
      | [] => [String c EmptyString]
      end
  end.

(** The items a [for ... of] loop visits. *)
Definition iterate (v : option JSON) : Completion (list JSON) :=
  match v with
  | Some (JArray items) => Normal items
  | Some (JString s) => Normal (map JString (code_points s))
  | _ => Throw "TypeError: value is not iterable"
  end.

(** [{ messages: [new HumanMessage(`report current events about: ${topic}`)],
      sender: "user" }] *)
Definition turn_input (text : string) : Update :=
  {| u_messages := Some [new_HumanMessage ("report current events about: " +:+ text)];
     u_sender := Some "user" |}.

Section Conversions.

Variable num : NumberOps.

(** [if (v)] *)
Definition truthy (v : option JSON) : bool :=
  match v with
  | None => false
  | Some JNull => false
  | Some (JBool b) => b
  | Some (JNumber lexeme) => negb (Number_isZero num lexeme)
  | Some (JString s) => nonempty s
  | Some (JArray _) => true
  | Some (JObject _) => true
  end.

(** [String(v)]: an array joins its items with commas, [null] items
    being empty; an object prints as [[object Object]] unless a member
    named [toString] hides the inherited method, in which case no
    primitive can be obtained. *)
Fixpoint ToString (v : JSON) : Completion string :=
  match v with
  | JNull => Normal "null"
  | JBool b => Normal (if b then "true" else "false")
  | JNumber lexeme => Normal (Number_toString num lexeme)
  | JString s => Normal s
  | JArray items =>
      (fix join_items (l : list JSON) : Completion string :=
         match l with
         | [] => Normal EmptyString
         | x :: rest =>
             a ← match x with JNull => Normal EmptyString | _ => ToString x end;
             match rest with
             | [] => Normal a
             | _ :: _ => b ← join_items rest; Normal (a +:+ "," +:+ b)
             end
         end) items
  | JObject members =>
      match own_property "toString" members with
      | Some _ => Throw "TypeError: Cannot convert object to primitive value"
      | None => Normal "[object Object]"
      end
  end.

(** A template-literal hole [${v}] *)
Definition template (v : option JSON) : Completion string :=
  match v with
  | None => Normal "undefined"
  | Some v => ToString v
  end.

(** [${v.key}] *)
Definition template_member (v : option JSON) (key : string) : Completion string :=
  x ← get_member v key; template x.

(** ** The response formatter *)

(** The body of the loop over [summary.key_points]. *)
Fixpoint key_points_loop (key_points : list JSON) (formatted : string) : Completion string :=
  match key_points with
  | [] => Normal formatted
  | kp :: rest =>
      point ← template_member (Some kp) "point";
      details ← template_member (Some kp) "details";
      key_points_loop rest
        (formatted +:+ "**" +:+ point +:+ "**" +:+ nl +:+ details +:+ nl +:+ nl)
  end.

Definition formatSummaryFromJSON (summary : option JSON) : Completion string :=
  headline ← template_member summary "headline";
  let formatted := "# " +:+ headline +:+ nl +:+ nl in
  overview ← template_member summary "overview";
  let formatted := formatted +:+ overview +:+ nl +:+ nl in
  let formatted := formatted +:+ "## Key Points" +:+ nl +:+ nl in
  key_points ← (x ← get_member summary "key_points"; iterate x);
  formatted ← key_points_loop key_points formatted;
  insights ← template_member summary "insights";
  let formatted := formatted +:+ "## Insights" +:+ nl +:+ nl +:+ insights +:+ nl +:+ nl in
  conclusion ← template_member summary "conclusion";
  Normal (formatted +:+ "## Conclusion" +:+ nl +:+ nl +:+ conclusion).

(** The guarded parse of the final content in [generateNews]: the
    formatted summary, or [None] when the content does not parse, has no
    truthy [summary], or cannot be rendered. *)
Definition format_final (finalContent : string) : option string :=
  try_catch
    (jsonResponse ← JSON_parse finalContent;
     summary ← get_member (Some jsonResponse) "summary";
     if truthy summary
     then formatted ← formatSummaryFromJSON summary; Normal (Some formatted)
     else Normal None)
    (fun _ => None).

(** ** [generateNews] and the socket handler *)

Variable llm : ChatOpenAI.
Variables getNews tavNews : StructuredTool.
Variable recursionLimit : nat.

Record NewsResult := {
  output : option AgentState;
  formattedSummary : option string
}.

(** The key under which the checkpointer files a thread: a missing
    [thread_id] is refused, any other value is used as a property key. *)
Definition thread_key (session_id : option JSON) : Completion string :=
  match session_id with
  | None => Throw "Failed to put checkpoint: missing thread_id"
  | Some v => ToString v
  end.

Definition generateNews (memory : gmap string AgentState) (topic session_id : option JSON)
    : gmap string AgentState * NewsResult :=
  let invoked : Completion (gmap string AgentState * Completion AgentState) :=
    text ← template topic;
    thread_id ← thread_key session_id;
    Normal (graph_invoke llm getNews tavNews recursionLimit memory thread_id
              (turn_input text)) in
  match invoked with
  | Normal (memory', Normal output) =>
      let finalMessage := last (messages output) in
      let formattedSummary :=
        match finalMessage with
        | Some m =>
            match content m with
            | Text c => format_final c
            | Blocks _ => None
            end
        | None => None
        end in
      (memory', {| output := Some output; formattedSummary := formattedSummary |})
  | Normal (memory', Throw err) =>
      (memory', {| output := None; formattedSummary := None |})
  | Throw err =>
      (memory, {| output := None; formattedSummary := None |})
  end.

(** [result?.formattedSummary || result?.output?.messages?.at(-1)?.content
    || 'No response available'] *)
Definition news_of (result : NewsResult) : MessageContent :=
  match formattedSummary result with
  | Some (String _ _ as f) => Text f
  | _ =>
      match (o ← output result; m ← last (messages o); Some (content m)) with
      | Some (Text (String _ _ as c)) => Text c
      | Some (Blocks bs) => Blocks bs
      | _ => Text "No response available"
      end
  end.

(** The handler of one socket message: the [news] value that is sent,
    if any, and the checkpoint memory afterwards. *)
Definition on_message (memory : gmap string AgentState) (raw : string)
    : gmap string AgentState * option MessageContent :=
  let request : Completion (option JSON * option JSON * option JSON) :=
    parsed ← JSON_parse raw;
    command ← get_member (Some parsed) "command";
    topic ← get_member (Some parsed) "topic";
    session_id ← get_member (Some parsed) "session_id";
    Normal (command, topic, session_id) in
  match request with
  | Normal (command, topic, session_id) =>
      if strict_equals command "lookup news" then
        let '(memory', result) := generateNews memory topic session_id in
        (memory', Some (news_of result))
      else (memory, None)
  | Throw e => (memory, Some (Text "Oops, something went wrong!"))
  end.

End Conversions.

(** ** The single-agent servers *)

(** [shouldContinue]: the last message is read without a guard, so an
    empty history throws. *)
Definition shouldContinue (state_messages : list BaseMessage) : Completion string :=
  match last state_messages with
  | Some lastMessage =>
      if has_tool_calls (Some lastMessage) then Normal "tools" else Normal "__end__"
  | None => Throw "TypeError: Cannot read properties of undefined (reading 'tool_calls')"
  end.

(** [state.messages[0]?.constructor.name === 'SystemMessage'
      ? state.messages : [systemPrompt, ...state.messages]] *)
Definition with_system_prompt (systemPrompt : BaseMessage) (state_messages : list BaseMessage)
    : list BaseMessage :=
  match head state_messages with
  | Some first =>
      if decide (kind first = SystemMessage) then state_messages
      else systemPrompt :: state_messages
  | None => systemPrompt :: state_messages
  end.

(** The server whose model always has the search tool bound. *)
Module ToolAgent.

Definition systemPrompt : BaseMessage :=
  new_SystemMessage
    ("You are a helpful news analyst assistant. When a user asks for news about a topic:" +:+ nl +:+ nl +:+
     "1. Use the search tool to find current news articles relavent 2025" +:+ nl +:+
     "2. Analyze and summarize the key findings" +:+ nl +:+
     "3. Provide your own insights and context about the topic" +:+ nl +:+
     "4. Highlight the most important or interesting developments" +:+ nl +:+
     "5. Keep your response informative but conversational" +:+ nl +:+ nl +:+
     "Always provide a thoughtful summary rather than just raw search results.").

Definition callModel (llm : ChatOpenAI) (getNews : StructuredTool)
    (state_messages : list BaseMessage) : Completion Update :=
  let model := llm {| bc_tools := [convertToOpenAITool getNews]; bc_response_format := None |} in
  let messages := with_system_prompt systemPrompt state_messages in
  response ← model messages;
  mret {| u_messages := Some [response]; u_sender := None |}.

End ToolAgent.

(** The server that asks for schema-constrained output once tool results
    are in. *)
Module JsonAgent.

Definition systemPrompt : BaseMessage :=
  new_SystemMessage
    ("You are a helpful news analyst assistant. When a user asks for news about a topic:" +:+ nl +:+ nl +:+
     "1. First, analyze what information you need in the reasoning section" +:+ nl +:+
     "2. Use the search tool to find current news articles relevant to 2025" +:+ nl +:+
     "3. After gathering information, provide a structured analysis with headline, summary, key developments, context, and outlook" +:+ nl +:+
     "4. Think step-by-step through your reasoning before providing the final analysis" +:+ nl +:+
     "5. Keep your response informative but conversational" +:+ nl +:+ nl +:+
     "You MUST respond in JSON format following the provided schema. Structure your thinking in the reasoning section, then provide comprehensive analysis.").

Definition callModel (llm : ChatOpenAI) (getNews : StructuredTool)
    (state_messages : list BaseMessage) : Completion Update :=
  let lastMessage := last state_messages in
  let hasToolResults :=
    match lastMessage with
    | Some m => bool_decide (kind m = ToolMessage)
    | None => false
    end in
  let messages := with_system_prompt systemPrompt state_messages in
  if hasToolResults then
    let modelWithJson :=
      llm {| bc_tools := [];
             bc_response_format :=
               Some {| rf_type := "json_schema"; rf_name := "news_analysis";
                       rf_strict := true; rf_schema := NewsAnalysisSchema |} |} in
    response ← modelWithJson messages;
    mret {| u_messages := Some [response]; u_sender := None |}
  else
    let modelWithTools :=
      llm {| bc_tools := [convertToOpenAITool getNews]; bc_response_format := None |} in
    response ← modelWithTools messages;
    mret {| u_messages := Some [response]; u_sender := None |}.

End JsonAgent.

(** ** Sample capabilities and requests *)

Module Samples.

(** A reply of the model with the given text and pending calls. *)
Definition reply (text : string) (calls : list ToolCall) : BaseMessage :=
  {| kind := AIMessage; content := Text text; name := None;
     tool_calls := Some calls; tool_call_id := None |}.

Definition search_call : ToolCall :=
  {| tc_id := "call_1"; tc_name := "search"; tc_args := "quantum computing" |}.

(** A model that answers every prompt with plain text. *)
Definition plain_llm : ChatOpenAI := fun _ _ => Normal (reply "findings" []).

(** A model that answers every prompt with the empty string. *)
Definition silent_llm : ChatOpenAI := fun _ _ => Normal (reply EmptyString []).

(** A model that asks for a search on every prompt. *)
Definition searching_llm : ChatOpenAI := fun _ _ => Normal (reply EmptyString [search_call]).

(** A model whose every call fails. *)
Definition failing_llm : ChatOpenAI := fun _ _ => Throw "429 rate limit".

(** A model that fails whenever the Tavily tool is bound and answers
    with plain text otherwise. *)
Definition no_tavily_llm : ChatOpenAI := fun config _ =>
  if bool_decide (bc_tools config = ["tavily_search_results_json"])
  then Throw "429 rate limit"
  else Normal (reply "findings" []).

Definition getNews : StructuredTool :=
  {| tool_name := "search"; tool_invoke := fun _ => Normal "search results" |}.

Definition tavNews : StructuredTool :=
  {| tool_name := "tavily_search_results_json"; tool_invoke := fun _ => Normal "tavily results" |}.

(** Numbers read by their lexeme; no sample contains a number. *)
Definition lexeme_numbers : NumberOps :=
  {| Number_toString := fun lexeme => lexeme;
     Number_isZero := fun lexeme => String.eqb lexeme "0" |}.

(** [{"command":"lookup news","topic":"quantum computing","session_id":"s1"}] *)
Definition lookup_request : string :=
  "{" +:+ dq +:+ "command" +:+ dq +:+ ":" +:+ dq +:+ "lookup news" +:+ dq +:+ "," +:+
  dq +:+ "topic" +:+ dq +:+ ":" +:+ dq +:+ "quantum computing" +:+ dq +:+ "," +:+
  dq +:+ "session_id" +:+ dq +:+ ":" +:+ dq +:+ "s1" +:+ dq +:+ "}".

(** [{"summary":{"key_points":[]}}] *)
Definition bare_summary : string :=
  "{" +:+ dq +:+ "summary" +:+ dq +:+ ":{" +:+ dq +:+ "key_points" +:+ dq +:+ ":[]}}".

Definition user_turn : BaseMessage := new_HumanMessage "report current events about: quantum computing".

Definition first_state : AgentState := {| messages := [user_turn]; sender := "user" |}.

(** The history of a thread whose first run stopped after the first
    researcher, after that researcher has answered the second turn. *)
Definition serp_twice : AgentState :=
  {| messages := [ user_turn; HumanMessage_from (reply "findings" []) "SerpResearcher";
                   user_turn; HumanMessage_from (reply "findings" []) "SerpResearcher" ];
     sender := "SerpResearcher" |}.

End Samples.

(** ** Vocabulary of the properties *)

(** One step of the runtime as a relation on (next node, state). *)
Definition step_rel (llm : ChatOpenAI) (getNews tavNews : StructuredTool)
    : relation (string * AgentState) :=
  fun c c' => graph_step llm getNews tavNews c.1 c.2 = Normal c'.

(** [agent] has contributed a message that is not a tool result. *)
Definition contributed (agent : string) (s : AgentState) : bool :=
  existsb (fun m => name_is m agent && negb (bool_decide (kind m = ToolMessage))) (messages s).

(** The messages the router counts. *)
Definition researchMessages (s : AgentState) : list BaseMessage :=
  List.filter (fun msg => name_is msg "SerpResearcher" || name_is msg "TavResearcher")
              (messages s).

(** The message an agent node appends for the reply [result]. *)
Definition appended (result : BaseMessage) (agent_name : string) : BaseMessage :=
  if negb (has_tool_calls (Some result)) then HumanMessage_from result agent_name else result.

(** ** The other servers of the repository *)

(** [const { command, topic, session_id } = JSON.parse(raw)] *)
Definition read_request (raw : string)
    : Completion (option JSON * option JSON * option JSON) :=
  parsed ← JSON_parse raw;
  command ← get_member (Some parsed) "command";
  topic ← get_member (Some parsed) "topic";
  session_id ← get_member (Some parsed) "session_id";
  Normal (command, topic, session_id).

(** [formatted || output?.messages?.at(-1)?.content || 'No response available'] *)
Definition news_or (formatted : option string) (output : option (list BaseMessage))
    : MessageContent :=
  match formatted with
  | Some (String _ _ as f) => Text f
  | _ =>
      match (msgs ← output; m ← last msgs; Some (content m)) with
      | Some (Text (String _ _ as c)) => Text c
      | Some (Blocks bs) => Blocks bs
      | _ => Text "No response available"
      end
  end.

(** The compiled agent of a single-agent server, as seen by one call of
    [app.invoke]: the text of the user message and the thread id go in, the
    messages of the final state come out, or the call fails. *)
Definition AgentApp : Type := string -> option JSON -> Completion (list BaseMessage).

(** The server built on the prebuilt agent that asks for a JSON report. *)
Module ReportServer.

Definition formatReportFromJSON (num : NumberOps) (report : option JSON) : Completion string :=
  headline ← template_member num report "headline";
  let formatted := "# " +:+ headline +:+ nl +:+ nl in
  summary ← template_member num report "summary";
  let formatted := formatted +:+ summary +:+ nl +:+ nl in
  let formatted := formatted +:+ "## Key Points" +:+ nl +:+ nl in
  key_points ← (x ← get_member report "key_points"; iterate x);
  formatted ← key_points_loop num key_points formatted;
  insights ← template_member num report "insights";
  let formatted := formatted +:+ "## Insights" +:+ nl +:+ nl +:+ insights +:+ nl +:+ nl in
  conclusion ← template_member num report "conclusion";
  Normal (formatted +:+ "## Conclusion" +:+ nl +:+ nl +:+ conclusion).

(** The guarded parse of the final content. *)
Definition format_final (num : NumberOps) (finalContent : string) : option string :=
  try_catch
    (jsonResponse ← JSON_parse finalContent;
     report ← get_member (Some jsonResponse) "report";
     if truthy num report
     then formatted ← formatReportFromJSON num report; Normal (Some formatted)
     else Normal None)
    (fun _ => None).

Record Result := {
  output : option (list BaseMessage);
  formattedReport : option string
}.

Definition generateNews (num : NumberOps) (app : AgentApp) (topic session_id : option JSON)
    : Result :=
  try_catch
    (text ← template num topic;
     output ← app ("Get news about: " +:+ text) session_id;
     let finalMessage := last output in
     let formattedReport :=
       match finalMessage with
       | Some m =>
           match content m with
           | Text c => format_final num c
           | Blocks _ => None
           end
       | None => None
       end in
     Normal {| output := Some output; formattedReport := formattedReport |})
    (fun _ => {| output := None; formattedReport := None |}).

(** The [news] value sent for one socket message, if any. *)
Definition on_message (num : NumberOps) (app : AgentApp) (raw : string)
    : option MessageContent :=
  try_catch
    ('(command, topic, session_id) ← read_request raw;
     if strict_equals command "lookup news" then
       let result := generateNews num app topic session_id in
       Normal (Some (news_or (formattedReport result) (output result)))
     else Normal None)
    (fun _ => Some (Text "Oops, something went wrong!")).

End ReportServer.

(** The server built on the prebuilt agent that replies in plain prose. *)
Module PlainServer.

(** [generateNews] returns the output, or nothing after a failure. *)
Definition generateNews (num : NumberOps) (app : AgentApp) (topic session_id : option JSON)
    : option (list BaseMessage) :=
  try_catch
    (text ← template num topic;
     output ← app ("Get news about: " +:+ text) session_id;
     Normal (Some output))
    (fun _ => None).

(** [output.messages.at(-1).content], read without a guard *)
Definition last_content (output : option (list BaseMessage)) : Completion MessageContent :=
  match output with
  | None => Throw "TypeError: Cannot read properties of undefined (reading 'messages')"
  | Some msgs =>
      match last msgs with
      | None => Throw "TypeError: Cannot read properties of undefined (reading 'content')"
      | Some m => Normal (content m)
      end
  end.

Definition on_message (num : NumberOps) (app : AgentApp) (raw : string)
    : option MessageContent :=
  try_catch
    ('(command, topic, session_id) ← read_request raw;
     if strict_equals command "lookup news" then
       let output := generateNews num app topic session_id in
       news ← last_content output;
       Normal (Some news)
     else Normal None)
    (fun _ => Some (Text "Oops, something went wrong!")).

End PlainServer.

(** The server of the hand-wired agent with the search tool bound, and the
    compiled multi-agent server: both reply with the last content or the
    fallback text. *)
Module ToolAgentServer.

Definition generateNews (num : NumberOps) (app : AgentApp) (topic session_id : option JSON)
    : option (list BaseMessage) :=
  try_catch
    (text ← template num topic;
     output ← app ("report current events about: " +:+ text) session_id;
     Normal (Some output))
    (fun _ => None).

Definition on_message (num : NumberOps) (app : AgentApp) (raw : string)
    : option MessageContent :=
  try_catch
    ('(command, topic, session_id) ← read_request raw;
     if strict_equals command "lookup news" then
       let output := generateNews num app topic session_id in
       Normal (Some (news_or None output))
     else Normal None)
    (fun _ => Some (Text "Oops, something went wrong!")).

End ToolAgentServer.

(** The server of the hand-wired agent that asks for a JSON analysis. *)
Module AnalysisServer.

(** The body of the loop over [analysis.key_developments]. *)
Fixpoint developments_loop (num : NumberOps) (key_developments : list JSON)
    (formatted : string) : Completion string :=
  match key_developments with
  | [] => Normal formatted
  | dev :: rest =>
      development ← template_member num (Some dev) "development";
      significance ← template_member num (Some dev) "significance";
      developments_loop num rest
        (formatted +:+ "**" +:+ development +:+ "**" +:+ nl +:+ significance +:+ nl +:+ nl)
  end.

Definition formatAnalysisFromJSON (num : NumberOps) (analysis : option JSON)
    : Completion string :=
  headline ← template_member num analysis "headline";
  let formatted := "# " +:+ headline +:+ nl +:+ nl in
  summary ← template_member num analysis "summary";
  let formatted := formatted +:+ summary +:+ nl +:+ nl in
  let formatted := formatted +:+ "## Key Developments" +:+ nl +:+ nl in
  key_developments ← (x ← get_member analysis "key_developments"; iterate x);
  formatted ← developments_loop num key_developments formatted;
  context ← template_member num analysis "context";
  let formatted := formatted +:+ "## Context" +:+ nl +:+ nl +:+ context +:+ nl +:+ nl in
  outlook ← template_member num analysis "outlook";
  Normal (formatted +:+ "## Outlook" +:+ nl +:+ nl +:+ outlook).

Definition format_final (num : NumberOps) (finalContent : string) : option string :=
  try_catch
    (jsonResponse ← JSON_parse finalContent;
     analysis ← get_member (Some jsonResponse) "analysis";
     if truthy num analysis
     then formatted ← formatAnalysisFromJSON num analysis; Normal (Some formatted)
     else Normal None)
    (fun _ => None).

Record Result := {
  output : option (list BaseMessage);
  formattedAnalysis : option string
}.

Definition generateNews (num : NumberOps) (app : AgentApp) (topic session_id : option JSON)
    : Result :=
  try_catch
    (text ← template num topic;
     output ← app ("report current events about: " +:+ text) session_id;
     let finalMessage := last output in
     let formattedAnalysis :=
       match finalMessage with
       | Some m =>
           match content m with
           | Text c => format_final num c
           | Blocks _ => None
           end
       | None => None
       end in
     Normal {| output := Some output; formattedAnalysis := formattedAnalysis |})
    (fun _ => {| output := None; formattedAnalysis := None |}).

Definition on_message (num : NumberOps) (app : AgentApp) (raw : string)
    : option MessageContent :=
  try_catch
    ('(command, topic, session_id) ← read_request raw;
     if strict_equals command "lookup news" then
       let result := generateNews num app topic session_id in
       Normal (Some (news_or (formattedAnalysis result) (output result)))
     else Normal None)
    (fun _ => Some (Text "Oops, something went wrong!")).

End AnalysisServer.

(** ** Vocabulary of the further properties *)

(** A JSON object [{"point": p, "details": d}] and the like. *)
Definition string_pair (k1 k2 : string) (item : string * string) : JSON :=
  JObject [(k1, JString item.1); (k2, JString item.2)].

(** The text the formatters produce for a list of (title, detail) pairs. *)
Fixpoint rendered_points (items : list (string * string)) : string :=
  match items with
  | [] => EmptyString
  | (title, detail) :: rest =>
      "**" +:+ title +:+ "**" +:+ nl +:+ detail +:+ nl +:+ nl +:+ rendered_points rest
  end.

(** [kps] are objects whose [k1] and [k2] members are the strings of [items]. *)
Definition titled_items (k1 k2 : string) (kps : list JSON) (items : list (string * string))
    : Prop :=
  Forall2 (fun kp item =>
             ∃ members, kp = JObject members ∧
               own_property k1 members = Some (JString item.1) ∧
               own_property k2 members = Some (JString item.2))
          kps items.



(** [sender] names a registered agent, or it is the default. *)
Definition known_sender (s : AgentState) : bool :=
  bool_decide (sender s ∈ ["user"; "SerpResearcher"; "TavResearcher"; "Summarizer"]).

(** [m], if it is a tool result, answers a call of an assistant message
    among [earlier]. *)
Definition answers_earlier_call (earlier : list BaseMessage) (m : BaseMessage) : bool :=
  if bool_decide (kind m = ToolMessage) then
    existsb (fun a =>
               bool_decide (kind a = AIMessage) &&
               existsb (fun call => bool_decide (tool_call_id m = Some (tc_id call)))
                       (default [] (tool_calls a)))
            earlier
  else true.

(** Every tool result in [l] answers a call made earlier in [seen ++ l]. *)
Fixpoint tool_linked_from (seen l : list BaseMessage) : bool :=
  match l with
  | [] => true
  | m :: rest => answers_earlier_call seen m && tool_linked_from (seen ++ [m]) rest
  end.

Definition tool_linked (l : list BaseMessage) : bool := tool_linked_from [] l.

(** ** Further sample capabilities *)

Module MoreSamples.

Definition quoted (s : string) : string := dq +:+ s +:+ dq.

(** [{"summary":{"headline":"X","overview":"O",
      "key_points":[{"point":"A","details":"B"}],"insights":"I","conclusion":"C"}}] *)
Definition full_summary : string :=
  "{" +:+ quoted "summary" +:+ ":{" +:+
    quoted "headline" +:+ ":" +:+ quoted "X" +:+ "," +:+
    quoted "overview" +:+ ":" +:+ quoted "O" +:+ "," +:+
    quoted "key_points" +:+ ":[{" +:+ quoted "point" +:+ ":" +:+ quoted "A" +:+ "," +:+
                                   quoted "details" +:+ ":" +:+ quoted "B" +:+ "}]," +:+
    quoted "insights" +:+ ":" +:+ quoted "I" +:+ "," +:+
    quoted "conclusion" +:+ ":" +:+ quoted "C" +:+ "}}".

(** A model that answers every prompt with the JSON text above. *)
Definition summary_llm : ChatOpenAI := fun _ _ => Normal (Samples.reply full_summary []).

(** A model whose replies are content blocks. *)
Definition blocks_llm : ChatOpenAI := fun _ _ =>
  Normal {| kind := AIMessage; content := Blocks ["findings"]; name := None;
            tool_calls := Some []; tool_call_id := None |}.

(** A model that asks for a search when no tool is bound (as for the
    summarizer) and answers with plain text otherwise. *)
Definition searching_summarizer_llm : ChatOpenAI := fun config _ =>
  if bool_decide (bc_tools config = [])
  then Normal (Samples.reply EmptyString [Samples.search_call])
  else Normal (Samples.reply "findings" []).

(** A model that asks for one search and answers once a tool result is in
    the prompt. *)
Definition search_once_llm : ChatOpenAI := fun _ prompt =>
  if existsb (fun m => bool_decide (kind m = ToolMessage)) prompt
  then Normal (Samples.reply "findings" [])
  else Normal (Samples.reply EmptyString [Samples.search_call]).

(** [{"command":"ping"}] *)
Definition ping_request : string := "{" +:+ quoted "command" +:+ ":" +:+ quoted "ping" +:+ "}".

(** An agent app that ends with the given content. *)
Definition answering_app (final : MessageContent) : AgentApp := fun text _ =>
  Normal [ new_HumanMessage text;
           {| kind := AIMessage; content := final; name := None;
              tool_calls := Some []; tool_call_id := None |} ].

(** An agent app whose every call fails. *)
Definition failing_app : AgentApp := fun _ _ => Throw "429 rate limit".

(** [{"report":{"headline":"X","summary":"O",
      "key_points":[{"point":"A","details":"B"}],"insights":"I","conclusion":"C"}}] *)
Definition full_report : string :=
  "{" +:+ quoted "report" +:+ ":{" +:+
    quoted "headline" +:+ ":" +:+ quoted "X" +:+ "," +:+
    quoted "summary" +:+ ":" +:+ quoted "O" +:+ "," +:+
    quoted "key_points" +:+ ":[{" +:+ quoted "point" +:+ ":" +:+ quoted "A" +:+ "," +:+
                                   quoted "details" +:+ ":" +:+ quoted "B" +:+ "}]," +:+
    quoted "insights" +:+ ":" +:+ quoted "I" +:+ "," +:+
    quoted "conclusion" +:+ ":" +:+ quoted "C" +:+ "}}".

End MoreSamples.

(** * Properties *)

Ltac unfold_bind := unfold mbind, mret, Completion_bind, Completion_ret in *.

#[local] Arguments String.eqb : simpl nomatch.

(** ** The reducers *)

Lemma apply_update_prefix (s : AgentState) (u : Update) :
  messages s `prefix_of` messages (apply_update s u).
Proof.
  unfold apply_update, messages_reducer; simpl.
  destruct (u_messages u) as [y|]; [by apply prefix_app_r | done].
Qed.

Lemma apply_update_sender (s : AgentState) (u : Update) :
  sender (apply_update s u) = default (sender s) (u_sender u).
Proof. unfold apply_update; simpl. by destruct (u_sender u). Qed.

(** ** Agent nodes *)

Lemma runAgentNode_inv state agent agent_name u :
  runAgentNode state agent agent_name = Normal u →
  ∃ result, agent state = Normal result ∧
    u = {| u_messages := Some [appended result agent_name]; u_sender := Some agent_name |}.
Proof.
  unfold runAgentNode, appended. unfold_bind.
  destruct (agent state) as [result|e]; [|discriminate].
  intros [= <-]. by exists result.
Qed.

Lemma runAgentNode_normal state agent agent_name result :
  agent state = Normal result →
  runAgentNode state agent agent_name =
    Normal {| u_messages := Some [appended result agent_name]; u_sender := Some agent_name |}.
Proof. unfold runAgentNode, appended. unfold_bind. by intros ->. Qed.

Lemma appended_has_tool_calls result agent_name :
  has_tool_calls (Some (appended result agent_name)) = has_tool_calls (Some result).
Proof.
  unfold appended. destruct (has_tool_calls (Some result)) eqn:H; simpl; [done|].
  reflexivity.
Qed.

Lemma last_snoc_update (s : AgentState) (m : BaseMessage) (who : option string) :
  last (messages (apply_update s {| u_messages := Some [m]; u_sender := who |})) = Some m.
Proof. unfold apply_update, messages_reducer; simpl. apply last_snoc. Qed.

(** C4, as stated, fails: the reply of the model is an assistant message,
    and the message the node appends for it is a human message. *)
Lemma agent_reply_changes_kind :
  ∃ m,
    runAgentNode Samples.first_state (fun _ => Normal (Samples.reply "findings" []))
                 "SerpResearcher"
      = Normal {| u_messages := Some [m]; u_sender := Some "SerpResearcher" |} ∧
    name m = Some "SerpResearcher" ∧
    kind (Samples.reply "findings" []) = AIMessage ∧
    kind m ≠ kind (Samples.reply "findings" []).
Proof. eexists. split; [reflexivity|]. by repeat split. Qed.

(** C4, amended: when the reply of the agent carries no pending tool calls,
    the node appends exactly one message, a human message that carries the
    content of the reply and the name of the agent as its author, and sets
    the sender to that name. *)
Theorem agent_reply_recorded_as_named_human state agent agent_name result :
  agent state = Normal result →
  has_tool_calls (Some result) = false →
  ∃ m,
    runAgentNode state agent agent_name
      = Normal {| u_messages := Some [m]; u_sender := Some agent_name |} ∧
    name m = Some agent_name ∧
    content m = content result ∧
    kind m = HumanMessage ∧
    has_tool_calls (Some m) = false.
Proof.
  intros Hagent Hcalls.
  exists (appended result agent_name). split.
  - by apply runAgentNode_normal.
  - unfold appended. rewrite Hcalls. by simpl.
Qed.

Lemma agent_reply_recorded_as_named_human_witness :
  ∃ m,
    runAgentNode Samples.first_state (fun _ => Normal (Samples.reply "findings" []))
                 "TavResearcher"
      = Normal {| u_messages := Some [m]; u_sender := Some "TavResearcher" |} ∧
    name m = Some "TavResearcher" ∧
    content m = content (Samples.reply "findings" []) ∧
    kind m = HumanMessage ∧
    has_tool_calls (Some m) = false.
Proof.
  apply (agent_reply_recorded_as_named_human Samples.first_state
           (fun _ => Normal (Samples.reply "findings" [])) "TavResearcher"
           (Samples.reply "findings" [])); reflexivity.
Defined.

(** ** The router after the summarizer *)

Lemma router_end (s : AgentState) :
  has_tool_calls (last (messages s)) = false →
  sender s = "Summarizer" →
  router s = "end".
Proof. intros Hlast Hsender. unfold router. by rewrite Hlast, Hsender. Qed.

(** C9: the only entry of the summarizer's path map is [end], and in the
    state left by the summarizer node the router returns [end] whenever the
    last message carries no pending tool calls, so the run goes to [END]
    and no unmapped outcome arises. *)
Theorem summarizer_routes_to_end llm getNews tavNews state u :
  summarizerNode llm state = Normal u →
  has_tool_calls (last (messages (apply_update state u))) = false →
  pathMap <$> lookup_key "Summarizer" (branches) = Some [("end", END)] ∧
  router (apply_update state u) = "end" ∧
  next_node "Summarizer" (apply_update state u) = Normal END ∧
  graph_step llm getNews tavNews "Summarizer" state = Normal (END, apply_update state u).
Proof.
  intros Hnode Hlast.
  assert (Hrouter : router (apply_update state u) = "end").
  { apply router_end; [done|].
    apply runAgentNode_inv in Hnode as (result & _ & ->).
    by rewrite apply_update_sender. }
  assert (Hnext : next_node "Summarizer" (apply_update state u) = Normal END).
  { unfold next_node. simpl. by rewrite Hrouter. }
  repeat split; try done.
  unfold graph_step. simpl. rewrite Hnode. unfold_bind. by rewrite Hnext.
Qed.

Lemma summarizer_routes_to_end_witness :
  let u := {| u_messages := Some [HumanMessage_from (Samples.reply "findings" []) "Summarizer"];
              u_sender := Some "Summarizer" |} in
  pathMap <$> lookup_key "Summarizer" branches = Some [("end", END)] ∧
  router (apply_update Samples.first_state u) = "end" ∧
  next_node "Summarizer" (apply_update Samples.first_state u) = Normal END ∧
  graph_step Samples.plain_llm Samples.getNews Samples.tavNews "Summarizer" Samples.first_state
    = Normal (END, apply_update Samples.first_state u).
Proof.
  apply (summarizer_routes_to_end Samples.plain_llm Samples.getNews Samples.tavNews
           Samples.first_state); reflexivity.
Defined.

(** ** Steps of the runtime *)

Section Steps.

Variable llm : ChatOpenAI.
Variables getNews tavNews : StructuredTool.

Lemma graph_step_inv node s dest s' :
  graph_step llm getNews tavNews node s = Normal (dest, s') →
  ∃ f u, lookup_key node (nodes llm getNews tavNews) = Some f ∧
         f s = Normal u ∧ s' = apply_update s u ∧ next_node node s' = Normal dest.
Proof.
  unfold graph_step. unfold_bind.
  destruct (lookup_key node _) as [f|]; [|discriminate].
  destruct (f s) as [u|e] eqn:Hf; [|discriminate].
  destruct (next_node node (apply_update s u)) as [d|e] eqn:Hnext; [|discriminate].
  intros [= <- <-]. by exists f, u.
Qed.

Lemma graph_step_unfold node f s :
  lookup_key node (nodes llm getNews tavNews) = Some f →
  graph_step llm getNews tavNews node s =
    (u ← f s; dest ← next_node node (apply_update s u); mret (dest, apply_update s u)).
Proof. unfold graph_step. by intros ->. Qed.

Lemma nodes_inv node f :
  lookup_key node (nodes llm getNews tavNews) = Some f →
  (node = "SerpResearcher" ∧ f = serpNode llm getNews) ∨
  (node = "TavResearcher" ∧ f = tavNode llm tavNews) ∨
  (node = "Summarizer" ∧ f = summarizerNode llm) ∨
  (node = "call_tool" ∧ f = toolNode getNews tavNews).
Proof.
  unfold nodes, lookup_key.
  repeat (match goal with
          | |- context [String.eqb ?a node] =>
              destruct (String.eqb_spec a node) as [<-|_]
          end; [intros [= <-]; auto 6 |]).
  discriminate.
Qed.

Lemma step_rel_prefix c c' :
  step_rel llm getNews tavNews c c' → messages c.2 `prefix_of` messages c'.2.
Proof.
  destruct c as [node s], c' as [dest s']. unfold step_rel; simpl.
  intros (f & u & _ & _ & -> & _)%graph_step_inv. apply apply_update_prefix.
Qed.

(** C3: along every sequence of node executions the history only grows
    at its end: the earlier history is a prefix of the later one, so the
    length never decreases and every earlier entry stays where it was,
    unchanged. *)
Theorem messages_append_only c c' :
  rtc (step_rel llm getNews tavNews) c c' →
  messages c.2 `prefix_of` messages c'.2 ∧
  length (messages c.2) ≤ length (messages c'.2) ∧
  ∀ i m, messages c.2 !! i = Some m → messages c'.2 !! i = Some m.
Proof.
  intros Hrun.
  assert (Hprefix : messages c.2 `prefix_of` messages c'.2).
  { induction Hrun as [|c1 c2 c3 Hstep _ IH]; [done|].
    etrans; [by apply step_rel_prefix | done]. }
  split; [done|]. split.
  - by apply prefix_length.
  - intros i m Hi. by eapply prefix_lookup_Some.
Qed.

End Steps.

Lemma messages_append_only_witness :
  let c := ("SerpResearcher", Samples.first_state) in
  let c' := ("TavResearcher",
             {| messages := [Samples.user_turn;
                             HumanMessage_from (Samples.reply "findings" []) "SerpResearcher"];
                sender := "SerpResearcher" |}) in
  messages c.2 `prefix_of` messages c'.2 ∧
  length (messages c.2) ≤ length (messages c'.2) ∧
  ∀ i m, messages c.2 !! i = Some m → messages c'.2 !! i = Some m.
Proof.
  apply (messages_append_only Samples.plain_llm Samples.getNews Samples.tavNews).
  apply rtc_once. reflexivity.
Defined.

(** ** The router, case by case *)

Lemma router_cases (s : AgentState) :
  (router s = "call_tool" ∧ has_tool_calls (last (messages s)) = true) ∨
  (router s = "end" ∧ has_tool_calls (last (messages s)) = false ∧
   sender s = "Summarizer") ∨
  (router s = "summarize" ∧ has_tool_calls (last (messages s)) = false ∧
   sender s ≠ "Summarizer" ∧ 2 ≤ length (researchMessages s)) ∨
  (router s = "continue" ∧ has_tool_calls (last (messages s)) = false ∧
   sender s ≠ "Summarizer" ∧ length (researchMessages s) < 2).
Proof.
  unfold router, researchMessages.
  destruct (has_tool_calls (last (messages s))); [by left|right].
  destruct (String.eqb_spec (sender s) "Summarizer") as [Heq|Hne]; [by left|right].
  destruct (Nat.leb_spec 2 (length (List.filter
    (fun msg => name_is msg "SerpResearcher" || name_is msg "TavResearcher") (messages s))));
    [left|right]; done.
Qed.

Lemma lookup_key_In {A} (k : string) (obj : list (string * A)) (v : A) :
  lookup_key k obj = Some v → In (k, v) obj.
Proof.
  induction obj as [|[k' v'] obj IH]; simpl; [discriminate|].
  destruct (String.eqb_spec k' k) as [->|_]; [intros [= ->]; by left | auto].
Qed.

Lemma next_node_SerpResearcher s :
  next_node "SerpResearcher" s =
    match lookup_key (router s)
            [ ("continue", "TavResearcher"); ("call_tool", "call_tool");
              ("summarize", "Summarizer"); ("end", END) ] with
    | Some dest => Normal dest
    | None => Throw "Branch condition returned unknown or null destination"
    end.
Proof. reflexivity. Qed.

Lemma next_node_TavResearcher s :
  next_node "TavResearcher" s =
    match lookup_key (router s)
            [ ("continue", "SerpResearcher"); ("call_tool", "call_tool");
              ("summarize", "Summarizer"); ("end", END) ] with
    | Some dest => Normal dest
    | None => Throw "Branch condition returned unknown or null destination"
    end.
Proof. reflexivity. Qed.

Lemma next_node_Summarizer s :
  next_node "Summarizer" s =
    match lookup_key (router s) [ ("end", END) ] with
    | Some dest => Normal dest
    | None => Throw "Branch condition returned unknown or null destination"
    end.
Proof. reflexivity. Qed.

Lemma next_node_call_tool s :
  next_node "call_tool" s =
    match lookup_key (sender s)
            [ ("SerpResearcher", "SerpResearcher"); ("TavResearcher", "TavResearcher") ] with
    | Some dest => Normal dest
    | None => Throw "Branch condition returned unknown or null destination"
    end.
Proof. reflexivity. Qed.

Section ToolReturn.

Variable llm : ChatOpenAI.
Variables getNews tavNews : StructuredTool.

Lemma ToolNode_inv (registered : list StructuredTool) s u :
  ToolNode registered s = Normal u →
  ∃ m calls, last (messages s) = Some m ∧ tool_calls m = Some calls ∧
    u = {| u_messages := Some (map (run_tool_call registered) calls); u_sender := None |}.
Proof.
  unfold ToolNode. unfold_bind.
  destruct (last (messages s)) as [m|]; [|discriminate].
  destruct (kind m); try discriminate.
  destruct (tool_calls m) as [calls|] eqn:Hcalls; [|discriminate].
  intros [= <-]. by exists m, calls.
Qed.

(** The tool node writes [messages] only: the sender is left as it was. *)
Lemma toolNode_keeps_sender s u :
  toolNode getNews tavNews s = Normal u →
  u_sender u = None ∧ sender (apply_update s u) = sender s.
Proof. by intros (m & calls & _ & _ & ->)%ToolNode_inv. Qed.

Lemma agent_step_to_tools agent agent_name s u mapped :
  runAgentNode s agent agent_name = Normal u →
  lookup_key (router (apply_update s u)) mapped = Some "call_tool" →
  lookup_key "end" mapped ≠ Some "call_tool" →
  lookup_key "summarize" mapped ≠ Some "call_tool" →
  lookup_key "continue" mapped ≠ Some "call_tool" →
  sender (apply_update s u) = agent_name ∧
  has_tool_calls (last (messages (apply_update s u))) = true.
Proof.
  intros (result & _ & ->)%runAgentNode_inv Hdest Hend Hsum Hcont.
  split; [by rewrite apply_update_sender|].
  destruct (router_cases (apply_update s
    {| u_messages := Some [appended result agent_name]; u_sender := Some agent_name |}))
    as [[_ H]|[[Hr _]|[[Hr _]|[Hr _]]]]; [done|..];
    rewrite Hr in Hdest; contradiction.
Qed.

(** C2: a step that hands over to the tool node was made by one of the
    two research agents, whose name is then the sender and whose reply
    carries the pending calls; the tool node writes no sender, and after
    it the runtime runs the node named by the sender, that same agent.
    The tool node does run whenever that reply is an assistant
    message. *)
Theorem tool_step_returns_to_sender node s s1 :
  graph_step llm getNews tavNews node s = Normal ("call_tool", s1) →
  (node = "SerpResearcher" ∨ node = "TavResearcher") ∧
  sender s1 = node ∧
  has_tool_calls (last (messages s1)) = true ∧
  (∀ m, last (messages s1) = Some m → kind m = AIMessage →
        ∃ u, toolNode getNews tavNews s1 = Normal u) ∧
  (∀ u, toolNode getNews tavNews s1 = Normal u →
        u_sender u = None ∧
        sender (apply_update s1 u) = sender s1 ∧
        graph_step llm getNews tavNews "call_tool" s1 = Normal (node, apply_update s1 u)).
Proof.
  intros (f & u0 & Hf & Hrun & -> & Hnext)%graph_step_inv.
  assert (Hagent : (node = "SerpResearcher" ∨ node = "TavResearcher") ∧
                   sender (apply_update s u0) = node ∧
                   has_tool_calls (last (messages (apply_update s u0))) = true).
  { apply nodes_inv in Hf as [[-> ->]|[[-> ->]|[[-> ->]|[-> ->]]]].
    - rewrite next_node_SerpResearcher in Hnext.
      destruct (lookup_key _ _) as [dest|] eqn:Hdest; [|discriminate].
      injection Hnext as ->.
      split; [by left|].
      eapply agent_step_to_tools; [exact Hrun | exact Hdest | simpl; discriminate ..].
    - rewrite next_node_TavResearcher in Hnext.
      destruct (lookup_key _ _) as [dest|] eqn:Hdest; [|discriminate].
      injection Hnext as ->.
      split; [by right|].
      eapply agent_step_to_tools; [exact Hrun | exact Hdest | simpl; discriminate ..].
    - rewrite next_node_Summarizer in Hnext.
      destruct (lookup_key _ _) as [dest|] eqn:Hdest; [|discriminate].
      apply lookup_key_In in Hdest as [[= _ <-]|[]]. discriminate.
    - rewrite next_node_call_tool in Hnext.
      destruct (lookup_key _ _) as [dest|] eqn:Hdest; [|discriminate].
      apply lookup_key_In in Hdest as [[= _ <-]|[[= _ <-]|[]]]; discriminate. }
  destruct Hagent as (Hnode & Hsender & Hcalls).
  split; [done|]. split; [done|]. split; [done|]. split.
  - intros m Hm Hkind. unfold toolNode, ToolNode. rewrite Hm, Hkind.
    rewrite Hm in Hcalls. simpl in Hcalls.
    destruct (tool_calls m) as [calls|]; [|discriminate]. by eexists.
  - intros u Htool.
    pose proof Htool as (m & calls & _ & _ & ->)%ToolNode_inv.
    split; [done|]. split; [done|].
    rewrite (graph_step_unfold llm getNews tavNews "call_tool" (toolNode getNews tavNews))
      by reflexivity.
    rewrite Htool. unfold_bind. rewrite next_node_call_tool.
    rewrite apply_update_sender. cbn [default u_sender]. rewrite Hsender.
    by destruct Hnode as [-> | ->].
Qed.

End ToolReturn.

Lemma tool_step_returns_to_sender_witness :
  let s1 := {| messages := [Samples.user_turn; Samples.reply EmptyString [Samples.search_call]];
               sender := "SerpResearcher" |} in
  ("SerpResearcher" = "SerpResearcher" ∨ "SerpResearcher" = "TavResearcher") ∧
  sender s1 = "SerpResearcher" ∧
  has_tool_calls (last (messages s1)) = true ∧
  (∀ m, last (messages s1) = Some m → kind m = AIMessage →
        ∃ u, toolNode Samples.getNews Samples.tavNews s1 = Normal u) ∧
  (∀ u, toolNode Samples.getNews Samples.tavNews s1 = Normal u →
        u_sender u = None ∧
        sender (apply_update s1 u) = sender s1 ∧
        graph_step Samples.searching_llm Samples.getNews Samples.tavNews "call_tool" s1
          = Normal ("SerpResearcher", apply_update s1 u)).
Proof.
  apply (tool_step_returns_to_sender Samples.searching_llm Samples.getNews Samples.tavNews
           "SerpResearcher" Samples.first_state).
  reflexivity.
Defined.

(** ** When the router hands over to the summarizer *)

Lemma name_is_eq msg agent : name_is msg agent = true → name msg = Some agent.
Proof.
  unfold name_is. destruct (name msg) as [n|]; [|discriminate].
  by intros ->%String.eqb_eq.
Qed.

Lemma contributed_counted agent (l : list BaseMessage) :
  agent = "SerpResearcher" ∨ agent = "TavResearcher" →
  existsb (fun m => name_is m agent && negb (bool_decide (kind m = ToolMessage))) l = true →
  1 ≤ length (List.filter
                (fun msg => name_is msg "SerpResearcher" || name_is msg "TavResearcher") l).
Proof.
  intros Hagent. induction l as [|m l IH]; simpl; [discriminate|].
  intros [[Hname _]%andb_true_iff | Hrest]%orb_true_iff.
  - assert (name_is m "SerpResearcher" || name_is m "TavResearcher" = true) as ->.
    { destruct Hagent as [-> | ->]; rewrite Hname; [done | by rewrite orb_true_r]. }
    simpl. lia.
  - destruct (name_is m "SerpResearcher" || name_is m "TavResearcher"); simpl;
      specialize (IH Hrest); lia.
Qed.

Lemma both_contributed_counted (l : list BaseMessage) :
  existsb (fun m => name_is m "SerpResearcher" && negb (bool_decide (kind m = ToolMessage))) l
    = true →
  existsb (fun m => name_is m "TavResearcher" && negb (bool_decide (kind m = ToolMessage))) l
    = true →
  2 ≤ length (List.filter
                (fun msg => name_is msg "SerpResearcher" || name_is msg "TavResearcher") l).
Proof.
  induction l as [|m l IH]; simpl; [discriminate|].
  intros Hserp Htav.
  apply orb_true_iff in Hserp as [[Hs _]%andb_true_iff | Hserp].
  - (* [m] is the first researcher's, so the second one's is further on *)
    apply name_is_eq in Hs as Hname.
    assert (name_is m "TavResearcher" = false) as Hnot.
    { unfold name_is. by rewrite Hname. }
    rewrite Hnot in Htav. simpl in Htav.
    unfold name_is at 1. rewrite Hname. simpl.
    apply (contributed_counted "TavResearcher") in Htav; [lia | by right].
  - apply orb_true_iff in Htav as [[Ht _]%andb_true_iff | Htav].
    + rewrite Ht, orb_true_r. simpl.
      apply (contributed_counted "SerpResearcher") in Hserp; [lia | by left].
    + specialize (IH Hserp Htav).
      destruct (name_is m "SerpResearcher" || name_is m "TavResearcher"); simpl; lia.
Qed.

(** The sound half of the counting rule: once both researchers have a
    message of their own in the history, the router (with no pending tool
    calls and a sender other than the summarizer) hands over to the
    summarizer. *)
Lemma router_summarize_if_both (s : AgentState) :
  has_tool_calls (last (messages s)) = false →
  sender s ≠ "Summarizer" →
  contributed "SerpResearcher" s = true →
  contributed "TavResearcher" s = true →
  router s = "summarize".
Proof.
  intros Hlast Hsender Hserp Htav.
  pose proof (both_contributed_counted (messages s) Hserp Htav) as Hcount.
  destruct (router_cases s) as [[_ H]|[[_ [_ H]]|[[H _]|[_ (_ & _ & H)]]]];
    [congruence | done | done | unfold researchMessages in *; lia].
Qed.

(** A thread whose first run stopped when the second researcher's model
    call failed keeps the first researcher's answer; on the next turn the
    first researcher answers again and the step leads to the summarizer
    with the state [Samples.serp_twice]. *)
Lemma serp_twice_reached :
  let input := {| u_messages := Some [Samples.user_turn]; u_sender := Some "user" |} in
  let first_run :=
    graph_invoke Samples.no_tavily_llm Samples.getNews Samples.tavNews 25 ∅ "s1" input in
  first_run.2 = Throw "429 rate limit" ∧
  ∃ saved, first_run.1 !! "s1" = Some saved ∧
    graph_step Samples.no_tavily_llm Samples.getNews Samples.tavNews
      "SerpResearcher" (apply_update saved input)
    = Normal ("Summarizer", Samples.serp_twice).
Proof.
  split; [by vm_compute|].
  eexists. split; by vm_compute.
Qed.

(** C1, evaluated where it fails: in [Samples.serp_twice] the last message
    carries no pending tool calls and the sender is not the summarizer;
    the router answers [summarize] on the count of two research messages,
    although the second researcher has contributed nothing. *)
Theorem router_summarizes_after_one_researcher :
  has_tool_calls (last (messages Samples.serp_twice)) = false ∧
  sender Samples.serp_twice ≠ "Summarizer" ∧
  length (researchMessages Samples.serp_twice) = 2 ∧
  router Samples.serp_twice = "summarize" ∧
  contributed "SerpResearcher" Samples.serp_twice = true ∧
  contributed "TavResearcher" Samples.serp_twice = false.
Proof. by repeat split. Qed.

(** ** Runs under the step cap *)

Section Runs.

Variable llm : ChatOpenAI.
Variables getNews tavNews : StructuredTool.

Abbreviation run := (run llm getNews tavNews).
Abbreviation step := (step_rel llm getNews tavNews).

Lemma run_END limit s : run (S limit) END s = (s, Normal s).
Proof. reflexivity. Qed.

Lemma run_0 node s : run 0 node s = (s, Throw "GraphRecursionError").
Proof. reflexivity. Qed.

Lemma run_S limit node s :
  node ≠ END →
  run (S limit) node s =
    match graph_step llm getNews tavNews node s with
    | Normal (dest, s') => run limit dest s'
    | Throw e => (s, Throw e)
    end.
Proof. intros Hnode. simpl. by destruct (String.eqb_spec node END). Qed.

Lemma no_step_from_END s c : ¬ step (END, s) c.
Proof. unfold step_rel. simpl. discriminate. Qed.

(** A run ends normally exactly when [END] is reached in fewer node
    executions than the cap. *)
Lemma run_normal_iff limit node s s' :
  (run limit node s).2 = Normal s' ↔
  ∃ k, k < limit ∧ nsteps step k (node, s) (END, s').
Proof.
  revert node s. induction limit as [|limit IH]; intros node s.
  - rewrite run_0. simpl. split; [discriminate|]. intros (k & Hk & _). lia.
  - destruct (decide (node = END)) as [->|Hnode].
    + rewrite run_END. simpl. split.
      * intros [= ->]. exists 0. split; [lia | constructor].
      * intros (k & _ & Hk). inversion Hk as [|? ? c ? Hstep]; subst; [done|].
        by apply no_step_from_END in Hstep.
    + rewrite run_S by done.
      destruct (graph_step llm getNews tavNews node s) as [[dest s1]|e] eqn:Hstep.
      * rewrite IH. split.
        -- intros (k & Hk & Hsteps). exists (S k). split; [lia|].
           by apply (nsteps_l _ _ _ (dest, s1)).
        -- intros (k & Hk & Hsteps).
           inversion Hsteps as [|k' ? c ? Hfirst Hrest]; subst; [done|].
           unfold step_rel in Hfirst. simpl in Hfirst.
           rewrite Hstep in Hfirst. injection Hfirst as <-.
           exists k'. split; [lia | done].
      * simpl. split; [discriminate|].
        intros (k & Hk & Hsteps).
        inversion Hsteps as [|k' ? c ? Hfirst Hrest]; subst; [done|].
        unfold step_rel in Hfirst. simpl in Hfirst. congruence.
Qed.

(** *** A model that never asks for a tool *)

Hypothesis plain_replies :
  ∀ config prompt, ∃ r, llm config prompt = Normal r ∧ has_tool_calls (Some r) = false.


Lemma researchMessages_snoc s r agent_name :
  agent_name = "SerpResearcher" ∨ agent_name = "TavResearcher" →
  length (researchMessages (apply_update s
    {| u_messages := Some [HumanMessage_from r agent_name]; u_sender := Some agent_name |}))
  = S (length (researchMessages s)).
Proof.
  intros Hname. unfold researchMessages, apply_update, messages_reducer. simpl.
  rewrite List.filter_app, length_app. simpl.
  assert (name_is (HumanMessage_from r agent_name) "SerpResearcher"
          || name_is (HumanMessage_from r agent_name) "TavResearcher" = true) as ->.
  { by destruct Hname as [-> | ->]. }
  simpl. lia.
Qed.

Lemma router_after_plain s r agent_name :
  let s' := apply_update s
    {| u_messages := Some [HumanMessage_from r agent_name]; u_sender := Some agent_name |} in
  has_tool_calls (last (messages s')) = false ∧ sender s' = agent_name.
Proof.
  cbv zeta. split; [by rewrite last_snoc_update | by rewrite apply_update_sender].
Qed.




End Runs.





(** ** Replies of the transport *)

Section Replies.

Variable num : NumberOps.
Variable llm : ChatOpenAI.
Variables getNews tavNews : StructuredTool.
Variable recursionLimit : nat.

Abbreviation generate := (generateNews num llm getNews tavNews recursionLimit).
Abbreviation handle := (on_message num llm getNews tavNews recursionLimit).
Abbreviation invoke := (graph_invoke llm getNews tavNews recursionLimit).

Lemma generateNews_completed memory topic session_id text thread_id memory' out :
  template num topic = Normal text →
  thread_key num session_id = Normal thread_id →
  invoke memory thread_id (turn_input text) = (memory', Normal out) →
  generate memory topic session_id =
    (memory',
     {| output := Some out;
        formattedSummary :=
          match last (messages out) with
          | Some m => match content m with
                      | Text c => format_final num c
                      | Blocks _ => None
                      end
          | None => None
          end |}).
Proof.
  intros Htopic Hkey Hrun. unfold generateNews. unfold_bind.
  rewrite Htopic, Hkey. by rewrite Hrun.
Qed.

Lemma generateNews_failed memory topic session_id :
  (∀ text thread_id,
      template num topic = Normal text →
      thread_key num session_id = Normal thread_id →
      ∃ e, (invoke memory thread_id (turn_input text)).2 = Throw e) →
  (generate memory topic session_id).2 = {| output := None; formattedSummary := None |}.
Proof.
  intros Hfail. unfold generateNews. unfold_bind.
  destruct (template num topic) as [text|e1] eqn:Htopic; [|done].
  destruct (thread_key num session_id) as [thread_id|e2] eqn:Hkey; [|done].
  destruct (Hfail text thread_id eq_refl eq_refl) as [e Hrun].
  destruct (graph_invoke _ _ _ _ _ _ _) as [memory' [out|e']]; simpl in *; [|done].
  discriminate.
Qed.

Lemma on_message_lookup memory raw parsed topic session_id :
  JSON_parse raw = Normal parsed →
  get_member (Some parsed) "command" = Normal (Some (JString "lookup news")) →
  get_member (Some parsed) "topic" = Normal topic →
  get_member (Some parsed) "session_id" = Normal session_id →
  handle memory raw =
    ((generate memory topic session_id).1,
     Some (news_of (generate memory topic session_id).2)).
Proof.
  intros Hparse Hcommand Htopic Hsession. unfold on_message. unfold_bind.
  rewrite Hparse, Hcommand, Htopic, Hsession.
  by destruct (generateNews _ _ _ _ _ _ _ _).
Qed.

Lemma format_final_unparsable c e : JSON_parse c = Throw e → format_final num c = None.
Proof. unfold format_final. unfold_bind. by intros ->. Qed.

Lemma format_final_no_summary c j :
  JSON_parse c = Normal j →
  (∀ v, get_member (Some j) "summary" = Normal v → truthy num v = false) →
  format_final num c = None.
Proof.
  intros Hparse Hsummary. unfold format_final. unfold_bind. rewrite Hparse.
  destruct (get_member (Some j) "summary") as [v|e]; [|done].
  by rewrite (Hsummary v eq_refl).
Qed.

Lemma news_of_raw out m c :
  last (messages out) = Some m → content m = Text c → c ≠ EmptyString →
  news_of {| output := Some out; formattedSummary := None |} = Text c.
Proof.
  intros Hlast Hcontent Hc. unfold news_of. simpl. rewrite Hlast. simpl.
  rewrite Hcontent. by destruct c.
Qed.

Lemma generateNews_completed_snd memory topic session_id text thread_id out :
  template num topic = Normal text →
  thread_key num session_id = Normal thread_id →
  (invoke memory thread_id (turn_input text)).2 = Normal out →
  (generate memory topic session_id).2 =
    {| output := Some out;
       formattedSummary :=
         match last (messages out) with
         | Some m => match content m with
                     | Text c => format_final num c
                     | Blocks _ => None
                     end
         | None => None
         end |}.
Proof.
  intros Htopic Hkey Hrun.
  destruct (invoke memory thread_id (turn_input text)) as [memory' result] eqn:Hinvoke.
  simpl in Hrun. subst result.
  by rewrite (generateNews_completed _ _ _ _ _ _ _ Htopic Hkey Hinvoke).
Qed.

Lemma news_of_nonempty result : news_of result ≠ Text EmptyString.
Proof.
  unfold news_of.
  destruct (formattedSummary result) as [[|a f]|]; [|done|];
    (destruct (output result) as [o|]; simpl; [|done];
     destruct (last (messages o)) as [m|]; simpl; [|done];
     by destruct (content m) as [[|b c]|bs]).
Qed.

Lemma on_message_cases memory raw :
  handle memory raw = (memory, Some (Text "Oops, something went wrong!")) ∨
  handle memory raw = (memory, None) ∨
  ∃ topic session_id,
    handle memory raw = ((generate memory topic session_id).1,
                         Some (news_of (generate memory topic session_id).2)).
Proof.
  unfold on_message. unfold_bind.
  destruct (JSON_parse raw) as [parsed|e]; [|by left].
  destruct (get_member (Some parsed) "command") as [command|e]; [|by left].
  destruct (get_member (Some parsed) "topic") as [topic|e]; [|by left].
  destruct (get_member (Some parsed) "session_id") as [session_id|e]; [|by left].
  destruct (strict_equals command "lookup news"); [|by right; left].
  right; right. exists topic, session_id.
  by destruct (generateNews _ _ _ _ _ _ _ _).
Qed.

Lemma graph_invoke_snd memory thread_id input :
  (invoke memory thread_id input).2 =
  (run llm getNews tavNews recursionLimit entry_point
       (apply_update (default initial_state (memory !! thread_id)) input)).2.
Proof. unfold graph_invoke. by destruct (run _ _ _ _ _ _). Qed.

Lemma failing_model_fails_run e s :
  (∀ config prompt, llm config prompt = Throw e) →
  0 < recursionLimit →
  (run llm getNews tavNews recursionLimit entry_point s).2 = Throw e.
Proof.
  intros Hllm Hlimit. destruct recursionLimit as [|limit]; [lia|].
  rewrite run_S by done.
  rewrite (graph_step_unfold llm getNews tavNews "SerpResearcher" (serpNode llm getNews))
    by reflexivity.
  unfold serpNode, runAgentNode, serpAgent, createAgent. unfold_bind. by rewrite Hllm.
Qed.

End Replies.

(** C6, as stated, fails: a run whose final message has the empty string
    as content (which is not valid JSON) does not hand the content back;
    the caller receives the fallback text. *)
Lemma empty_content_not_returned :
  let topic := Some (JString "quantum computing") in
  let session_id := Some (JString "s1") in
  let result :=
    (generateNews Samples.lexeme_numbers Samples.silent_llm Samples.getNews Samples.tavNews 25
                  ∅ topic session_id).2 in
  (content <$> (output result ≫= fun out => last (messages out))) = Some (Text EmptyString) ∧
  JSON_parse EmptyString = Throw "SyntaxError" ∧
  formattedSummary result = None ∧
  news_of result = Text "No response available" ∧
  (on_message Samples.lexeme_numbers Samples.silent_llm Samples.getNews Samples.tavNews 25
              ∅ Samples.lookup_request).2 = Some (Text "No response available").
Proof. by vm_compute. Qed.

(** A payload that parses and has a [summary] is rendered even when it does
    not conform to the schema: missing members print as [undefined]. *)
Lemma bare_summary_is_formatted :
  format_final Samples.lexeme_numbers Samples.bare_summary =
    Some ("# undefined" +:+ nl +:+ nl +:+ "undefined" +:+ nl +:+ nl +:+
          "## Key Points" +:+ nl +:+ nl +:+
          "## Insights" +:+ nl +:+ nl +:+ "undefined" +:+ nl +:+ nl +:+
          "## Conclusion" +:+ nl +:+ nl +:+ "undefined").
Proof. by vm_compute. Qed.

(** C6, amended: when the run completes and the content of its final
    message is a non-empty string that is not valid JSON, or is JSON
    without a readable, truthy [summary] member, no formatted summary is
    produced, nothing is thrown, and the caller receives the content
    unchanged. *)
Theorem raw_content_returned_when_not_formatted
    num llm getNews tavNews recursionLimit memory topic session_id text thread_id out m c :
  template num topic = Normal text →
  thread_key num session_id = Normal thread_id →
  (graph_invoke llm getNews tavNews recursionLimit memory thread_id (turn_input text)).2
    = Normal out →
  last (messages out) = Some m →
  content m = Text c →
  c ≠ EmptyString →
  (∃ e, JSON_parse c = Throw e) ∨
  (∃ j, JSON_parse c = Normal j ∧
        ∀ v, get_member (Some j) "summary" = Normal v → truthy num v = false) →
  (generateNews num llm getNews tavNews recursionLimit memory topic session_id).2
    = {| output := Some out; formattedSummary := None |} ∧
  news_of (generateNews num llm getNews tavNews recursionLimit memory topic session_id).2
    = Text c.
Proof.
  intros Htopic Hkey Hrun Hlast Hcontent Hc Hjson.
  assert (format_final num c = None) as Hformat.
  { destruct Hjson as [[e He] | (j & Hj & Hsummary)].
    - by eapply format_final_unparsable.
    - by eapply format_final_no_summary. }
  rewrite (generateNews_completed_snd _ _ _ _ _ _ _ _ _ _ _ Htopic Hkey Hrun).
  rewrite Hlast, Hcontent, Hformat. split; [done|].
  by eapply news_of_raw.
Qed.

Lemma raw_content_returned_when_not_formatted_witness :
  news_of (generateNews Samples.lexeme_numbers Samples.plain_llm Samples.getNews Samples.tavNews
                        25 ∅ (Some (JString "quantum computing")) (Some (JString "s1"))).2
    = Text "findings".
Proof.
  eapply (raw_content_returned_when_not_formatted
            Samples.lexeme_numbers Samples.plain_llm Samples.getNews Samples.tavNews 25 ∅
            (Some (JString "quantum computing")) (Some (JString "s1"))
            "quantum computing" "s1" _
            (HumanMessage_from (Samples.reply "findings" []) "Summarizer") "findings").
  - reflexivity.
  - reflexivity.
  - vm_compute. reflexivity.
  - reflexivity.
  - reflexivity.
  - discriminate.
  - left. exists "SyntaxError". vm_compute. reflexivity.
Defined.

(** C7, as stated, fails: a failing model call and an unreadable request
    are both fatal for the request, and they are answered with two
    different texts. *)
Lemma fatal_replies_differ :
  (on_message Samples.lexeme_numbers Samples.failing_llm Samples.getNews Samples.tavNews 25
              ∅ Samples.lookup_request).2 = Some (Text "No response available") ∧
  (on_message Samples.lexeme_numbers Samples.searching_llm Samples.getNews Samples.tavNews 25
              ∅ Samples.lookup_request).2 = Some (Text "No response available") ∧
  (on_message Samples.lexeme_numbers Samples.plain_llm Samples.getNews Samples.tavNews 25
              ∅ "not json").2 = Some (Text "Oops, something went wrong!") ∧
  (on_message Samples.lexeme_numbers Samples.failing_llm Samples.getNews Samples.tavNews 25
              ∅ Samples.lookup_request).2
  ≠ (on_message Samples.lexeme_numbers Samples.plain_llm Samples.getNews Samples.tavNews 25
                ∅ "not json").2.
Proof. by vm_compute. Qed.

(** C7, amended: a request that cannot be read (it does not parse, or it
    parses to [null]) is answered with the text [Oops, something went
    wrong!]; a lookup whose graph run fails is answered with the text [No
    response available], and a failing model call or a run that does not
    reach [END] within the step cap are such failures.  Either reply is a
    fixed text and carries nothing of the session state. *)
Theorem fatal_paths_reply num llm getNews tavNews recursionLimit memory :
  (∀ raw, (∃ e, JSON_parse raw = Throw e) ∨ JSON_parse raw = Normal JNull →
     on_message num llm getNews tavNews recursionLimit memory raw
       = (memory, Some (Text "Oops, something went wrong!"))) ∧
  (∀ raw parsed topic session_id,
     JSON_parse raw = Normal parsed →
     get_member (Some parsed) "command" = Normal (Some (JString "lookup news")) →
     get_member (Some parsed) "topic" = Normal topic →
     get_member (Some parsed) "session_id" = Normal session_id →
     (∀ text thread_id,
        template num topic = Normal text →
        thread_key num session_id = Normal thread_id →
        ∃ e, (graph_invoke llm getNews tavNews recursionLimit memory thread_id
                (turn_input text)).2 = Throw e) →
     (on_message num llm getNews tavNews recursionLimit memory raw).2
       = Some (Text "No response available")) ∧
  (∀ e thread_id input,
     (∀ config prompt, llm config prompt = Throw e) → 0 < recursionLimit →
     (graph_invoke llm getNews tavNews recursionLimit memory thread_id input).2 = Throw e) ∧
  (∀ thread_id input,
     (¬ ∃ k s', k ≤ recursionLimit ∧
         nsteps (step_rel llm getNews tavNews) k
           (entry_point, apply_update (default initial_state (memory !! thread_id)) input)
           (END, s')) →
     ∃ e, (graph_invoke llm getNews tavNews recursionLimit memory thread_id input).2 = Throw e).
Proof.
  repeat split.
  - intros raw [[e He] | Hnull]; unfold on_message; unfold_bind.
    + by rewrite He.
    + by rewrite Hnull.
  - intros raw parsed topic session_id Hparse Hcommand Htopic Hsession Hfail.
    rewrite (on_message_lookup _ _ _ _ _ _ _ _ _ _ Hparse Hcommand Htopic Hsession). simpl.
    by rewrite generateNews_failed.
  - intros e thread_id input Hllm Hlimit.
    rewrite graph_invoke_snd. by apply failing_model_fails_run.
  - intros thread_id input Hnone. rewrite graph_invoke_snd.
    destruct (run _ _ _ _ _ _).2 as [s'|e] eqn:Hrun; [|by exists e].
    apply run_normal_iff in Hrun as (k & Hk & Hsteps).
    destruct Hnone. exists k, s'. split; [lia | done].
Qed.

Lemma fatal_paths_reply_witness :
  on_message Samples.lexeme_numbers Samples.failing_llm Samples.getNews Samples.tavNews 25
             ∅ "{" = (∅, Some (Text "Oops, something went wrong!")) ∧
  (on_message Samples.lexeme_numbers Samples.failing_llm Samples.getNews Samples.tavNews 25
              ∅ Samples.lookup_request).2 = Some (Text "No response available").
Proof.
  pose proof (fatal_paths_reply Samples.lexeme_numbers Samples.failing_llm
                Samples.getNews Samples.tavNews 25 ∅) as (Hunread & Hfailed & Hmodel & _).
  split.
  - apply Hunread. left. exists "SyntaxError". vm_compute. reflexivity.
  - eapply Hfailed.
    + vm_compute. reflexivity.
    + reflexivity.
    + reflexivity.
    + reflexivity.
    + intros text thread_id _ _. exists "429 rate limit".
      apply Hmodel; [reflexivity | lia].
Defined.

(** C10: the [news] value sent to the caller is never the empty string;
    in particular, when the run completes and the content of its final
    message is the empty string, no summary is formatted and the caller
    receives the text [No response available]. *)
Theorem empty_content_yields_fallback num llm getNews tavNews recursionLimit :
  (∀ result, news_of result ≠ Text EmptyString) ∧
  (∀ memory raw, (on_message num llm getNews tavNews recursionLimit memory raw).2
                   ≠ Some (Text EmptyString)) ∧
  (∀ memory topic session_id text thread_id out m,
     template num topic = Normal text →
     thread_key num session_id = Normal thread_id →
     (graph_invoke llm getNews tavNews recursionLimit memory thread_id (turn_input text)).2
       = Normal out →
     last (messages out) = Some m →
     content m = Text EmptyString →
     (generateNews num llm getNews tavNews recursionLimit memory topic session_id).2
       = {| output := Some out; formattedSummary := None |} ∧
     news_of (generateNews num llm getNews tavNews recursionLimit memory topic session_id).2
       = Text "No response available").
Proof.
  split; [|split].
  - apply news_of_nonempty.
  - intros memory raw.
    destruct (on_message_cases num llm getNews tavNews recursionLimit memory raw)
      as [-> | [-> | (topic & session_id & ->)]]; simpl; [done | done |].
    intros [= H]. by apply news_of_nonempty in H.
  - intros memory topic session_id text thread_id out m Htopic Hkey Hrun Hlast Hcontent.
    rewrite (generateNews_completed_snd _ _ _ _ _ _ _ _ _ _ _ Htopic Hkey Hrun).
    rewrite Hlast, Hcontent.
    assert (format_final num EmptyString = None) as -> by reflexivity.
    split; [done|]. unfold news_of. simpl. rewrite Hlast. simpl. by rewrite Hcontent.
Qed.

Lemma empty_content_yields_fallback_witness :
  news_of (generateNews Samples.lexeme_numbers Samples.silent_llm Samples.getNews
                        Samples.tavNews 25 ∅
                        (Some (JString "quantum computing")) (Some (JString "s1"))).2
    = Text "No response available".
Proof.
  eapply (empty_content_yields_fallback
            Samples.lexeme_numbers Samples.silent_llm Samples.getNews Samples.tavNews 25).
  - reflexivity.
  - reflexivity.
  - vm_compute. reflexivity.
  - reflexivity.
  - reflexivity.
Defined.

(** ** The system prompt *)

(** Outside the histories a run can hold: were a system message to stand
    further down the history, the single-agent servers would still prepend
    their prompt, and an agent built by [createAgent] prepends its prompt
    to a history that starts with a system message. *)
Lemma system_prompt_prepended_despite_system_message :
  let history := [new_HumanMessage "hi"; new_SystemMessage "be brief"] in
  let history' := [new_SystemMessage "be brief"; new_HumanMessage "hi"] in
  (∃ m, m ∈ history ∧ kind m = SystemMessage) ∧
  with_system_prompt ToolAgent.systemPrompt history = ToolAgent.systemPrompt :: history ∧
  with_system_prompt JsonAgent.systemPrompt history = JsonAgent.systemPrompt :: history ∧
  (∃ m, m ∈ history' ∧ kind m = SystemMessage) ∧
  format_prompt "You are a helpful AI assistant" history'
    = new_SystemMessage "You are a helpful AI assistant" :: history'.
Proof.
  cbv zeta. repeat split; try reflexivity.
  - exists (new_SystemMessage "be brief"). split; [|done]. apply list_elem_of_In. simpl. auto.
  - exists (new_SystemMessage "be brief"). split; [|done]. apply list_elem_of_In. simpl. auto.
Qed.

(** The test the single-agent servers make: they prepend their system
    prompt to the outgoing history if and only if the first message of the
    history is not a system message, and otherwise send the history as it
    is; the agents built by [createAgent] always prepend theirs. *)
Lemma system_prompt_prepended_iff_first_not_system (history : list BaseMessage) :
  (∀ prompt,
     (with_system_prompt prompt history = prompt :: history ↔
      ¬ ∃ first, head history = Some first ∧ kind first = SystemMessage) ∧
     ((∃ first, head history = Some first ∧ kind first = SystemMessage) →
      with_system_prompt prompt history = history)) ∧
  (∀ llm getNews,
     ToolAgent.callModel llm getNews history =
       (response ← llm {| bc_tools := [convertToOpenAITool getNews];
                          bc_response_format := None |}
                       (with_system_prompt ToolAgent.systemPrompt history);
        mret {| u_messages := Some [response]; u_sender := None |})) ∧
  (∀ llm getNews, ∃ config,
     JsonAgent.callModel llm getNews history =
       (response ← llm config (with_system_prompt JsonAgent.systemPrompt history);
        mret {| u_messages := Some [response]; u_sender := None |})) ∧
  (∀ llm tools systemMessage responseSchema sender, ∃ config,
     createAgent llm tools systemMessage responseSchema
                 {| messages := history; sender := sender |} =
       llm config
           (new_SystemMessage
              (systemPrompt (join ", " (map tool_name tools)) systemMessage responseSchema)
            :: history)).
Proof.
  split; [|split; [|split]].
  - intros prompt. unfold with_system_prompt.
    destruct history as [|first rest]; simpl.
    + split; [|by intros (first & [=] & _)].
      split; [|done]. by intros _ (first & [=] & _).
    + destruct (decide (kind first = SystemMessage)) as [Hkind|Hkind].
      * split; [|done]. split.
        -- intros Heq. apply (f_equal length) in Heq. simpl in Heq. lia.
        -- intros Hnot. destruct Hnot. by exists first.
      * split.
        -- split; [|done]. by intros _ (first' & [= <-] & Hsys).
        -- by intros (first' & [= <-] & Hsys).
  - reflexivity.
  - intros llm getNews. unfold JsonAgent.callModel.
    destruct (match last history with
              | Some m => bool_decide (kind m = ToolMessage)
              | None => false
              end); eexists; reflexivity.
  - intros llm tools systemMessage responseSchema sender. eexists. reflexivity.
Qed.

Lemma system_prompt_prepended_iff_first_not_system_witness :
  with_system_prompt ToolAgent.systemPrompt
    [new_SystemMessage "be brief"; new_HumanMessage "hi"]
  = [new_SystemMessage "be brief"; new_HumanMessage "hi"].
Proof.
  apply (system_prompt_prepended_iff_first_not_system
           [new_SystemMessage "be brief"; new_HumanMessage "hi"]).
  exists (new_SystemMessage "be brief"). split; reflexivity.
Defined.

(** * Further properties *)

(** ** Strings *)

Lemma append_assoc (a b c : string) : (a +:+ b) +:+ c = a +:+ (b +:+ c).
Proof.
  induction a as [|x a IH]; [done|].
  change (String x ((a +:+ b) +:+ c) = String x (a +:+ (b +:+ c))). by f_equal.
Qed.

Lemma append_EmptyString (a : string) : a +:+ EmptyString = a.
Proof.
  induction a as [|x a IH]; [done|].
  change (String x (a +:+ EmptyString) = String x a). by f_equal.
Qed.

(** ** The formatters on well-formed payloads *)


Lemma template_member_string num members key text :
  own_property key members = Some (JString text) →
  template_member num (Some (JObject members)) key = Normal text.
Proof. intros H. unfold template_member, get_member. unfold_bind. by rewrite H. Qed.

Lemma key_points_loop_renders num kps items formatted :
  titled_items "point" "details" kps items →
  key_points_loop num kps formatted = Normal (formatted +:+ rendered_points items).
Proof.
  intros Hitems. revert formatted.
  induction Hitems as [|kp [title detail] kps items (members & -> & Hp & Hd) _ IH];
    intros formatted.
  - simpl. by rewrite append_EmptyString.
  - cbn [key_points_loop rendered_points].
    rewrite (template_member_string _ _ _ _ Hp), (template_member_string _ _ _ _ Hd).
    unfold_bind. rewrite IH. by rewrite !append_assoc.
Qed.

(** X1: for a summary object whose [headline], [overview], [insights] and
    [conclusion] are strings and whose [key_points] is an array of objects
    with string [point] and [details], the formatter returns the fixed
    layout: headline, overview, the key points in order, insights,
    conclusion. *)
Theorem formatSummaryFromJSON_renders num members headline overview kps items insights conclusion :
  own_property "headline" members = Some (JString headline) →
  own_property "overview" members = Some (JString overview) →
  own_property "key_points" members = Some (JArray kps) →
  titled_items "point" "details" kps items →
  own_property "insights" members = Some (JString insights) →
  own_property "conclusion" members = Some (JString conclusion) →
  formatSummaryFromJSON num (Some (JObject members)) =
    Normal ("# " +:+ headline +:+ nl +:+ nl +:+
            overview +:+ nl +:+ nl +:+
            "## Key Points" +:+ nl +:+ nl +:+
            rendered_points items +:+
            "## Insights" +:+ nl +:+ nl +:+ insights +:+ nl +:+ nl +:+
            "## Conclusion" +:+ nl +:+ nl +:+ conclusion).
Proof.
  intros Hh Ho Hk Hitems Hi Hc. unfold formatSummaryFromJSON.
  rewrite (template_member_string _ _ _ _ Hh), (template_member_string _ _ _ _ Ho),
    (template_member_string _ _ _ _ Hi), (template_member_string _ _ _ _ Hc).
  unfold get_member. rewrite Hk. unfold_bind. cbn [iterate].
  rewrite (key_points_loop_renders _ _ _ _ Hitems).
  by rewrite !append_assoc.
Qed.

Lemma formatSummaryFromJSON_renders_witness :
  formatSummaryFromJSON Samples.lexeme_numbers
    (Some (JObject [ ("headline", JString "X"); ("overview", JString "O");
                     ("key_points", JArray [string_pair "point" "details" ("A", "B")]);
                     ("insights", JString "I"); ("conclusion", JString "C") ])) =
    Normal ("# " +:+ "X" +:+ nl +:+ nl +:+ "O" +:+ nl +:+ nl +:+
            "## Key Points" +:+ nl +:+ nl +:+
            rendered_points [("A", "B")] +:+
            "## Insights" +:+ nl +:+ nl +:+ "I" +:+ nl +:+ nl +:+
            "## Conclusion" +:+ nl +:+ nl +:+ "C").
Proof.
  apply (formatSummaryFromJSON_renders Samples.lexeme_numbers _ "X" "O"
           [string_pair "point" "details" ("A", "B")] [("A", "B")] "I" "C");
    try reflexivity.
  constructor; [|constructor]. eexists. repeat split; reflexivity.
Defined.

(** X2: a summary without an iterable [key_points] (the member is missing,
    or is neither an array nor a string, or the summary itself cannot be
    read) makes the formatter throw, whatever its other members; the
    guarded parse then yields no summary, so the raw content is what the
    reply chain falls back on. *)
Theorem formatter_needs_key_points num summary :
  (∀ v, get_member summary "key_points" = Normal v → ∃ e, iterate v = Throw e) →
  (∃ e, formatSummaryFromJSON num summary = Throw e) ∧
  (∀ c j, JSON_parse c = Normal j → get_member (Some j) "summary" = Normal summary →
          format_final num c = None).
Proof.
  intros Hkp.
  assert (∃ e, formatSummaryFromJSON num summary = Throw e) as [e He].
  { unfold formatSummaryFromJSON. unfold_bind.
    destruct (template_member num summary "headline") as [h|e]; [|by eexists].
    destruct (template_member num summary "overview") as [o|e]; [|by eexists].
    destruct (get_member summary "key_points") as [v|e] eqn:Hv; [|by eexists].
    destruct (Hkp v eq_refl) as [e ->]. by eexists. }
  split; [by exists e|].
  intros c j Hparse Hsummary. unfold format_final. unfold_bind.
  rewrite Hparse, Hsummary. destruct (truthy num summary); [|done]. by rewrite He.
Qed.

Lemma formatter_needs_key_points_witness :
  format_final Samples.lexeme_numbers
    ("{" +:+ dq +:+ "summary" +:+ dq +:+ ":{" +:+ dq +:+ "headline" +:+ dq +:+ ":" +:+
     dq +:+ "X" +:+ dq +:+ "}}") = None.
Proof.
  eapply (formatter_needs_key_points Samples.lexeme_numbers
            (Some (JObject [("headline", JString "X")]))).
  - intros v [= <-]. by eexists.
  - vm_compute. reflexivity.
  - reflexivity.
Defined.

Lemma key_points_loop_extends num kps formatted f :
  key_points_loop num kps formatted = Normal f → ∃ rest, f = formatted +:+ rest.
Proof.
  revert formatted. induction kps as [|kp kps IH]; intros formatted; simpl.
  - intros [= <-]. exists EmptyString. by rewrite append_EmptyString.
  - unfold_bind.
    destruct (template_member num (Some kp) "point") as [p|e]; [|discriminate].
    destruct (template_member num (Some kp) "details") as [d|e]; [|discriminate].
    intros (rest & ->)%IH. eexists. by rewrite !append_assoc.
Qed.

Lemma formatSummaryFromJSON_headed num summary f :
  formatSummaryFromJSON num summary = Normal f → ∃ rest, f = "# " +:+ rest.
Proof.
  unfold formatSummaryFromJSON. unfold_bind.
  destruct (template_member num summary "headline") as [h|e]; [|discriminate].
  destruct (template_member num summary "overview") as [o|e]; [|discriminate].
  destruct (get_member summary "key_points") as [v|e]; [|discriminate].
  destruct (iterate v) as [kps|e]; [|discriminate].
  destruct (key_points_loop _ _ _) as [g|e] eqn:Hloop; [|discriminate].
  apply key_points_loop_extends in Hloop as (rest & ->).
  destruct (template_member num summary "insights") as [i|e]; [|discriminate].
  destruct (template_member num summary "conclusion") as [c|e]; [|discriminate].
  intros [= <-]. eexists. by rewrite !append_assoc.
Qed.

Lemma format_final_headed num c f :
  format_final num c = Some f → ∃ rest, f = "# " +:+ rest.
Proof.
  unfold format_final. unfold_bind.
  destruct (JSON_parse c) as [j|e]; [|discriminate].
  destruct (get_member (Some j) "summary") as [summary|e]; [|discriminate]. simpl.
  destruct (truthy num summary); [|discriminate].
  destruct (formatSummaryFromJSON num summary) as [g|e] eqn:Hg; [|discriminate].
  intros [= <-]. by eapply formatSummaryFromJSON_headed.
Qed.

(** X3: whenever the final content of a completed run is formatted, the
    caller receives the formatted summary, which starts with a [# ]
    headline line; neither the raw content nor the fallback text is
    sent. *)
Theorem formatted_summary_is_delivered
    num llm getNews tavNews recursionLimit memory topic session_id text thread_id out m c f :
  template num topic = Normal text →
  thread_key num session_id = Normal thread_id →
  (graph_invoke llm getNews tavNews recursionLimit memory thread_id (turn_input text)).2
    = Normal out →
  last (messages out) = Some m →
  content m = Text c →
  format_final num c = Some f →
  news_of (generateNews num llm getNews tavNews recursionLimit memory topic session_id).2
    = Text f ∧
  ∃ rest, f = "# " +:+ rest.
Proof.
  intros Htopic Hkey Hrun Hlast Hcontent Hformat.
  rewrite (generateNews_completed_snd _ _ _ _ _ _ _ _ _ _ _ Htopic Hkey Hrun).
  rewrite Hlast, Hcontent, Hformat.
  destruct (format_final_headed _ _ _ Hformat) as (rest & ->). split; [done|].
  by exists rest.
Qed.

Lemma formatted_summary_is_delivered_witness :
  news_of (generateNews Samples.lexeme_numbers MoreSamples.summary_llm Samples.getNews
                        Samples.tavNews 25 ∅
                        (Some (JString "quantum computing")) (Some (JString "s1"))).2
    = Text ("# X" +:+ nl +:+ nl +:+ "O" +:+ nl +:+ nl +:+ "## Key Points" +:+ nl +:+ nl +:+
            "**A**" +:+ nl +:+ "B" +:+ nl +:+ nl +:+
            "## Insights" +:+ nl +:+ nl +:+ "I" +:+ nl +:+ nl +:+
            "## Conclusion" +:+ nl +:+ nl +:+ "C").
Proof.
  eapply (formatted_summary_is_delivered
            Samples.lexeme_numbers MoreSamples.summary_llm Samples.getNews Samples.tavNews 25 ∅
            (Some (JString "quantum computing")) (Some (JString "s1"))
            "quantum computing" "s1" _
            (HumanMessage_from (Samples.reply MoreSamples.full_summary []) "Summarizer")
            MoreSamples.full_summary).
  - reflexivity.
  - reflexivity.
  - vm_compute. reflexivity.
  - reflexivity.
  - reflexivity.
  - vm_compute. reflexivity.
Defined.

(** ** Requests the handler does not serve *)

Lemma on_message_read num llm getNews tavNews recursionLimit memory raw :
  on_message num llm getNews tavNews recursionLimit memory raw =
    match read_request raw with
    | Normal (command, topic, session_id) =>
        if strict_equals command "lookup news" then
          ((generateNews num llm getNews tavNews recursionLimit memory topic session_id).1,
           Some (news_of
                   (generateNews num llm getNews tavNews recursionLimit memory
                                 topic session_id).2))
        else (memory, None)
    | Throw e => (memory, Some (Text "Oops, something went wrong!"))
    end.
Proof.
  unfold on_message, read_request. unfold_bind.
  destruct (JSON_parse raw) as [parsed|e]; [|done].
  destruct (get_member (Some parsed) "command") as [command|e]; [|done].
  destruct (get_member (Some parsed) "topic") as [topic|e]; [|done].
  destruct (get_member (Some parsed) "session_id") as [session_id|e]; [|done].
  destruct (strict_equals command "lookup news"); [|done].
  by destruct (generateNews _ _ _ _ _ _ _ _).
Qed.

(** X4: a request that parses to anything but [null] and whose [command]
    is not the string [lookup news] (a missing command, another command, a
    number, an array) is ignored: nothing is sent, no graph run is made,
    and the checkpoints are left as they were. *)
Theorem other_commands_are_ignored num llm getNews tavNews recursionLimit memory raw parsed :
  JSON_parse raw = Normal parsed →
  parsed ≠ JNull →
  (∀ s, get_member (Some parsed) "command" = Normal (Some (JString s)) → s ≠ "lookup news") →
  on_message num llm getNews tavNews recursionLimit memory raw = (memory, None).
Proof.
  intros Hparse Hnull Hcommand.
  rewrite on_message_read. unfold read_request. unfold_bind. rewrite Hparse.
  assert (∀ key, ∃ v, get_member (Some parsed) key = Normal v) as Hget.
  { intros key. destruct parsed; try done; by eexists. }
  destruct (Hget "command") as [command Hc]. rewrite Hc.
  destruct (Hget "topic") as [topic ->]. destruct (Hget "session_id") as [session_id ->].
  assert (strict_equals command "lookup news" = false) as ->; [|done].
  destruct command as [[| | |s| |]|]; try done.
  simpl. apply String.eqb_neq. by apply Hcommand.
Qed.

Lemma other_commands_are_ignored_witness :
  on_message Samples.lexeme_numbers Samples.plain_llm Samples.getNews Samples.tavNews 25
             ∅ MoreSamples.ping_request = (∅, None).
Proof.
  eapply (other_commands_are_ignored Samples.lexeme_numbers Samples.plain_llm
            Samples.getNews Samples.tavNews 25 ∅ MoreSamples.ping_request).
  - vm_compute. reflexivity.
  - discriminate.
  - intros s [= <-]. discriminate.
Defined.

(** X5: a final message whose content is an array of content blocks is not
    parsed; the caller receives the blocks as they are. *)
Theorem content_blocks_pass_through
    num llm getNews tavNews recursionLimit memory topic session_id text thread_id out m bs :
  template num topic = Normal text →
  thread_key num session_id = Normal thread_id →
  (graph_invoke llm getNews tavNews recursionLimit memory thread_id (turn_input text)).2
    = Normal out →
  last (messages out) = Some m →
  content m = Blocks bs →
  (generateNews num llm getNews tavNews recursionLimit memory topic session_id).2
    = {| output := Some out; formattedSummary := None |} ∧
  news_of (generateNews num llm getNews tavNews recursionLimit memory topic session_id).2
    = Blocks bs.
Proof.
  intros Htopic Hkey Hrun Hlast Hcontent.
  rewrite (generateNews_completed_snd _ _ _ _ _ _ _ _ _ _ _ Htopic Hkey Hrun).
  rewrite Hlast, Hcontent. split; [done|].
  unfold news_of. simpl. rewrite Hlast. simpl. by rewrite Hcontent.
Qed.

Lemma content_blocks_pass_through_witness :
  news_of (generateNews Samples.lexeme_numbers MoreSamples.blocks_llm Samples.getNews
                        Samples.tavNews 25 ∅
                        (Some (JString "quantum computing")) (Some (JString "s1"))).2
    = Blocks ["findings"].
Proof.
  eapply (content_blocks_pass_through
            Samples.lexeme_numbers MoreSamples.blocks_llm Samples.getNews Samples.tavNews 25 ∅
            (Some (JString "quantum computing")) (Some (JString "s1"))
            "quantum computing" "s1").
  - reflexivity.
  - reflexivity.
  - vm_compute. reflexivity.
  - reflexivity.
  - reflexivity.
Defined.

(** ** The order in which the agents run *)

Section Order.

Variable llm : ChatOpenAI.
Variables getNews tavNews : StructuredTool.

(** The step of a researcher whose reply carries no tool calls. *)
Lemma researcher_reply_step s agent_name agent node other r :
  (agent_name = "SerpResearcher" ∧ agent = serpAgent llm getNews ∧
   node = serpNode llm getNews ∧ other = "TavResearcher") ∨
  (agent_name = "TavResearcher" ∧ agent = tavAgent llm tavNews ∧
   node = tavNode llm tavNews ∧ other = "SerpResearcher") →
  agent s = Normal r →
  has_tool_calls (Some r) = false →
  let s' := apply_update s
              {| u_messages := Some [HumanMessage_from r agent_name];
                 u_sender := Some agent_name |} in
  graph_step llm getNews tavNews agent_name s =
    Normal (if 2 <=? length (researchMessages s') then "Summarizer" else other, s').
Proof.
  intros Hcase Hreply Hcalls. cbv zeta. set (s' := apply_update s _).
  assert (Hnode : node s = Normal {| u_messages := Some [HumanMessage_from r agent_name];
                                     u_sender := Some agent_name |}).
  { destruct Hcase as [(-> & -> & -> & _) | (-> & -> & -> & _)];
      [unfold serpNode | unfold tavNode];
      erewrite runAgentNode_normal by exact Hreply; unfold appended; by rewrite Hcalls. }
  destruct (router_after_plain s r agent_name) as [Hlast Hsender]. fold s' in Hlast, Hsender.
  assert (Hnot : sender s' ≠ "Summarizer").
  { rewrite Hsender. by destruct Hcase as [(-> & _) | (-> & _)]. }
  assert (Hrouter : router s' =
                    if 2 <=? length (researchMessages s') then "summarize" else "continue").
  { destruct (router_cases s') as [[_ H]|[[_ [_ H]]|[(H & _ & _ & Hc)|(H & _ & _ & Hc)]]];
      [congruence | done | ..]; rewrite H.
    - by destruct (Nat.leb_spec 2 (length (researchMessages s'))); [|lia].
    - by destruct (Nat.leb_spec 2 (length (researchMessages s'))); [lia|]. }
  destruct Hcase as [(-> & -> & -> & ->) | (-> & -> & -> & ->)].
  - rewrite (graph_step_unfold llm getNews tavNews "SerpResearcher" (serpNode llm getNews))
      by reflexivity.
    rewrite Hnode. unfold_bind. fold s'. rewrite next_node_SerpResearcher, Hrouter.
    by destruct (2 <=? length (researchMessages s')).
  - rewrite (graph_step_unfold llm getNews tavNews "TavResearcher" (tavNode llm tavNews))
      by reflexivity.
    rewrite Hnode. unfold_bind. fold s'. rewrite next_node_TavResearcher, Hrouter.
    by destruct (2 <=? length (researchMessages s')).
Qed.

(** The step of the summarizer when its reply carries no tool calls. *)
Lemma summarizer_reply_step s r :
  summarizerAgent llm s = Normal r →
  has_tool_calls (Some r) = false →
  graph_step llm getNews tavNews "Summarizer" s =
    Normal (END, apply_update s
                   {| u_messages := Some [HumanMessage_from r "Summarizer"];
                      u_sender := Some "Summarizer" |}).
Proof.
  intros Hreply Hcalls.
  rewrite (graph_step_unfold llm getNews tavNews "Summarizer" (summarizerNode llm))
    by reflexivity.
  unfold summarizerNode. erewrite runAgentNode_normal by exact Hreply.
  unfold appended. rewrite Hcalls. unfold_bind. simpl negb. cbv iota.
  rewrite next_node_Summarizer.
  destruct (router_after_plain s r "Summarizer") as [Hlast Hsender].
  by rewrite (router_end _ Hlast Hsender).
Qed.

Lemma run_three limit n1 n2 n3 s s1 s2 out :
  graph_step llm getNews tavNews n1 s = Normal (n2, s1) →
  graph_step llm getNews tavNews n2 s1 = Normal (n3, s2) →
  graph_step llm getNews tavNews n3 s2 = Normal (END, out) →
  n1 ≠ END → n2 ≠ END → n3 ≠ END →
  run llm getNews tavNews (S (S (S (S limit)))) n1 s = (out, Normal out).
Proof.
  intros H1 H2 H3 ? ? ?.
  rewrite run_S, H1 by done. rewrite run_S, H2 by done. rewrite run_S, H3 by done.
  apply run_END.
Qed.

Lemma run_two limit n1 n2 s s1 out :
  graph_step llm getNews tavNews n1 s = Normal (n2, s1) →
  graph_step llm getNews tavNews n2 s1 = Normal (END, out) →
  n1 ≠ END → n2 ≠ END →
  run llm getNews tavNews (S (S (S limit))) n1 s = (out, Normal out).
Proof.
  intros H1 H2 ? ?.
  rewrite run_S, H1 by done. rewrite run_S, H2 by done. apply run_END.
Qed.

Hypothesis plain_replies :
  ∀ config prompt, ∃ r, llm config prompt = Normal r ∧ has_tool_calls (Some r) = false.

Lemma plain_agent_reply tools systemMessage schema s :
  ∃ r, createAgent llm tools systemMessage schema s = Normal r ∧
       has_tool_calls (Some r) = false.
Proof. unfold createAgent. apply plain_replies. Qed.

(** X6: on a thread without research messages (a fresh thread), with a
    model that always replies and never asks for a tool, the run visits
    the first researcher, the second researcher and the summarizer, once
    each and in this order, and ends under every cap of four or more; the
    history gains exactly three messages, the replies of the three agents
    on the history as it stood at their turn, each as a human message
    under its author's name. *)
Theorem fresh_thread_round_robin limit s :
  researchMessages s = [] →
  4 ≤ limit →
  ∃ r1 r2 r3,
    let s1 := apply_update s
                {| u_messages := Some [HumanMessage_from r1 "SerpResearcher"];
                   u_sender := Some "SerpResearcher" |} in
    let s2 := apply_update s1
                {| u_messages := Some [HumanMessage_from r2 "TavResearcher"];
                   u_sender := Some "TavResearcher" |} in
    let out := apply_update s2
                 {| u_messages := Some [HumanMessage_from r3 "Summarizer"];
                    u_sender := Some "Summarizer" |} in
    serpAgent llm getNews s = Normal r1 ∧
    tavAgent llm tavNews s1 = Normal r2 ∧
    summarizerAgent llm s2 = Normal r3 ∧
    graph_step llm getNews tavNews "SerpResearcher" s = Normal ("TavResearcher", s1) ∧
    graph_step llm getNews tavNews "TavResearcher" s1 = Normal ("Summarizer", s2) ∧
    graph_step llm getNews tavNews "Summarizer" s2 = Normal (END, out) ∧
    run llm getNews tavNews limit entry_point s = (out, Normal out) ∧
    messages out = messages s ++ [ HumanMessage_from r1 "SerpResearcher";
                                   HumanMessage_from r2 "TavResearcher";
                                   HumanMessage_from r3 "Summarizer" ] ∧
    sender out = "Summarizer".
Proof.
  intros Hfresh Hlimit.
  destruct (plain_agent_reply [getNews] researcher_systemMessage
              (Some ResearcherResponseSchema) s) as (r1 & Hr1 & Hc1).
  pose proof (researcher_reply_step s "SerpResearcher" (serpAgent llm getNews)
                (serpNode llm getNews) "TavResearcher" r1) as Hstep1.
  cbv zeta in Hstep1. set (s1 := apply_update s _) in Hstep1.
  specialize (Hstep1 ltac:(by left) Hr1 Hc1).
  assert (length (researchMessages s1) = 1) as Hcount1.
  { unfold s1. rewrite researchMessages_snoc by auto. by rewrite Hfresh. }
  rewrite Hcount1 in Hstep1. simpl in Hstep1.
  destruct (plain_agent_reply [tavNews] researcher_systemMessage
              (Some ResearcherResponseSchema) s1) as (r2 & Hr2 & Hc2).
  pose proof (researcher_reply_step s1 "TavResearcher" (tavAgent llm tavNews)
                (tavNode llm tavNews) "SerpResearcher" r2) as Hstep2.
  cbv zeta in Hstep2. set (s2 := apply_update s1 _) in Hstep2.
  specialize (Hstep2 ltac:(by right) Hr2 Hc2).
  assert (length (researchMessages s2) = 2) as Hcount2.
  { unfold s2. rewrite researchMessages_snoc by auto. by rewrite Hcount1. }
  rewrite Hcount2 in Hstep2. simpl in Hstep2.
  destruct (plain_agent_reply [] summarizer_systemMessage
              (Some SummarizerResponseSchema) s2) as (r3 & Hr3 & Hc3).
  pose proof (summarizer_reply_step s2 r3 Hr3 Hc3) as Hstep3.
  exists r1, r2, r3. cbv zeta. fold s1. fold s2.
  split; [exact Hr1|]. split; [exact Hr2|]. split; [exact Hr3|].
  split; [exact Hstep1|]. split; [exact Hstep2|]. split; [exact Hstep3|].
  split; [|split].
  - destruct limit as [|[|[|[|limit]]]]; [lia..|].
    by eapply run_three.
  - unfold s2, s1, apply_update, messages_reducer. simpl. by rewrite <- !app_assoc.
  - by rewrite apply_update_sender.
Qed.

(** X7: on a thread that already holds a research message (any follow-up
    turn of a thread with a completed turn), the same model makes the run
    go from the first researcher straight to the summarizer and end, under
    every cap of three or more: the second researcher is not run in that
    turn, and the history gains the replies of the two agents that
    ran. *)
Theorem follow_up_turn_skips_second_researcher limit s :
  1 ≤ length (researchMessages s) →
  3 ≤ limit →
  ∃ r1 r2,
    let s1 := apply_update s
                {| u_messages := Some [HumanMessage_from r1 "SerpResearcher"];
                   u_sender := Some "SerpResearcher" |} in
    let out := apply_update s1
                 {| u_messages := Some [HumanMessage_from r2 "Summarizer"];
                    u_sender := Some "Summarizer" |} in
    serpAgent llm getNews s = Normal r1 ∧
    summarizerAgent llm s1 = Normal r2 ∧
    graph_step llm getNews tavNews "SerpResearcher" s = Normal ("Summarizer", s1) ∧
    graph_step llm getNews tavNews "Summarizer" s1 = Normal (END, out) ∧
    run llm getNews tavNews limit entry_point s = (out, Normal out) ∧
    messages out = messages s ++ [ HumanMessage_from r1 "SerpResearcher";
                                   HumanMessage_from r2 "Summarizer" ].
Proof.
  intros Hcount Hlimit.
  destruct (plain_agent_reply [getNews] researcher_systemMessage
              (Some ResearcherResponseSchema) s) as (r1 & Hr1 & Hc1).
  pose proof (researcher_reply_step s "SerpResearcher" (serpAgent llm getNews)
                (serpNode llm getNews) "TavResearcher" r1) as Hstep1.
  cbv zeta in Hstep1. set (s1 := apply_update s _) in Hstep1.
  specialize (Hstep1 ltac:(by left) Hr1 Hc1).
  assert ((2 <=? length (researchMessages s1)) = true) as Hcount1.
  { apply Nat.leb_le. unfold s1. rewrite researchMessages_snoc by auto. lia. }
  rewrite Hcount1 in Hstep1.
  destruct (plain_agent_reply [] summarizer_systemMessage
              (Some SummarizerResponseSchema) s1) as (r2 & Hr2 & Hc2).
  pose proof (summarizer_reply_step s1 r2 Hr2 Hc2) as Hstep2.
  exists r1, r2. cbv zeta. fold s1.
  split; [exact Hr1|]. split; [exact Hr2|].
  split; [exact Hstep1|]. split; [exact Hstep2|]. split.
  - destruct limit as [|[|[|limit]]]; [lia..|]. by eapply run_two.
  - unfold s1, apply_update, messages_reducer. simpl. by rewrite <- !app_assoc.
Qed.

End Order.

Lemma plain_llm_replies :
  ∀ config prompt, ∃ r, Samples.plain_llm config prompt = Normal r ∧
                        has_tool_calls (Some r) = false.
Proof. intros config prompt. exists (Samples.reply "findings" []). by split. Qed.

Lemma fresh_thread_round_robin_witness :
  ∃ out,
    run Samples.plain_llm Samples.getNews Samples.tavNews 4 entry_point Samples.first_state
      = (out, Normal out) ∧
    sender out = "Summarizer".
Proof.
  destruct (fresh_thread_round_robin Samples.plain_llm Samples.getNews Samples.tavNews
              plain_llm_replies 4 Samples.first_state) as (r1 & r2 & r3 & H);
    [reflexivity | lia |].
  cbv zeta in H. destruct H as (_ & _ & _ & _ & _ & _ & Hrun & _ & Hsender).
  eexists. split; [exact Hrun | exact Hsender].
Defined.

Lemma follow_up_turn_skips_second_researcher_witness :
  let s := {| messages := [ Samples.user_turn;
                            HumanMessage_from (Samples.reply "findings" []) "SerpResearcher";
                            HumanMessage_from (Samples.reply "findings" []) "TavResearcher";
                            HumanMessage_from (Samples.reply "findings" []) "Summarizer";
                            Samples.user_turn ];
              sender := "user" |} in
  ∃ out,
    run Samples.plain_llm Samples.getNews Samples.tavNews 3 entry_point s = (out, Normal out).
Proof.
  intros s.
  destruct (follow_up_turn_skips_second_researcher Samples.plain_llm Samples.getNews
              Samples.tavNews plain_llm_replies 3 s) as (r1 & r2 & H);
    [simpl; lia | lia |].
  cbv zeta in H. destruct H as (_ & _ & _ & _ & Hrun & _).
  eexists. exact Hrun.
Defined.

(** ** A summarizer that asks for a tool *)

(** X8: the summarizer has no edge to the tool node.  When its reply
    carries pending tool calls the router answers [call_tool], which the
    summarizer's path map does not contain: the step throws, the run stops
    with that error, and the state keeps no trace of the reply. *)
Theorem summarizer_tool_calls_abort llm getNews tavNews limit s u :
  summarizerNode llm s = Normal u →
  has_tool_calls (last (messages (apply_update s u))) = true →
  router (apply_update s u) = "call_tool" ∧
  graph_step llm getNews tavNews "Summarizer" s
    = Throw "Branch condition returned unknown or null destination" ∧
  run llm getNews tavNews (S limit) "Summarizer" s
    = (s, Throw "Branch condition returned unknown or null destination").
Proof.
  intros Hnode Hcalls.
  assert (router (apply_update s u) = "call_tool") as Hrouter.
  { unfold router. by rewrite Hcalls. }
  assert (graph_step llm getNews tavNews "Summarizer" s
          = Throw "Branch condition returned unknown or null destination") as Hstep.
  { rewrite (graph_step_unfold llm getNews tavNews "Summarizer" (summarizerNode llm))
      by reflexivity.
    rewrite Hnode. unfold_bind. by rewrite next_node_Summarizer, Hrouter. }
  split; [done|]. split; [done|].
  rewrite run_S by done. by rewrite Hstep.
Qed.

Lemma summarizer_tool_calls_abort_witness :
  router (apply_update Samples.first_state
            {| u_messages := Some [Samples.reply EmptyString [Samples.search_call]];
               u_sender := Some "Summarizer" |}) = "call_tool" ∧
  graph_step MoreSamples.searching_summarizer_llm Samples.getNews Samples.tavNews
             "Summarizer" Samples.first_state
    = Throw "Branch condition returned unknown or null destination" ∧
  run MoreSamples.searching_summarizer_llm Samples.getNews Samples.tavNews 25
      "Summarizer" Samples.first_state
    = (Samples.first_state, Throw "Branch condition returned unknown or null destination").
Proof.
  apply (summarizer_tool_calls_abort MoreSamples.searching_summarizer_llm
           Samples.getNews Samples.tavNews 24 Samples.first_state); reflexivity.
Defined.

(** ** Invariants of a run *)

Section Invariants.

Variable llm : ChatOpenAI.
Variables getNews tavNews : StructuredTool.

Lemma step_cases node s dest s' :
  graph_step llm getNews tavNews node s = Normal (dest, s') →
  (∃ result agent_name,
      (agent_name = "SerpResearcher" ∨ agent_name = "TavResearcher" ∨
       agent_name = "Summarizer") ∧
      node = agent_name ∧
      (∃ config prompt, llm config prompt = Normal result) ∧
      s' = apply_update s {| u_messages := Some [appended result agent_name];
                             u_sender := Some agent_name |}) ∨
  (∃ m calls,
      node = "call_tool" ∧ last (messages s) = Some m ∧ kind m = AIMessage ∧
      tool_calls m = Some calls ∧
      s' = apply_update s
             {| u_messages := Some (map (run_tool_call (tools getNews tavNews)) calls);
                u_sender := None |}).
Proof.
  intros (f & u & Hf & Hrun & -> & _)%graph_step_inv.
  apply nodes_inv in Hf as [[-> ->]|[[-> ->]|[[-> ->]|[-> ->]]]].
  - apply runAgentNode_inv in Hrun as (result & Hllm & ->).
    left. exists result, "SerpResearcher". split; [auto|]. split; [done|].
    split; [|done]. unfold serpAgent, createAgent in Hllm. eauto.
  - apply runAgentNode_inv in Hrun as (result & Hllm & ->).
    left. exists result, "TavResearcher". split; [auto|]. split; [done|].
    split; [|done]. unfold tavAgent, createAgent in Hllm. eauto.
  - apply runAgentNode_inv in Hrun as (result & Hllm & ->).
    left. exists result, "Summarizer". split; [auto|]. split; [done|].
    split; [|done]. unfold summarizerAgent, createAgent in Hllm. eauto.
  - right. unfold toolNode, ToolNode in Hrun.
    destruct (last (messages s)) as [m|] eqn:Hlast; [|discriminate].
    destruct (kind m) eqn:Hkind; try discriminate.
    destruct (tool_calls m) as [calls|] eqn:Hcalls; [|discriminate].
    injection Hrun as <-. by exists m, calls.
Qed.

(** X9: along every run the sender stays one of the three agent names or
    the default [user]: an agent node sets it to its own name, the tool
    node leaves it alone. *)
Theorem sender_stays_known c c' :
  rtc (step_rel llm getNews tavNews) c c' →
  known_sender c.2 = true →
  known_sender c'.2 = true.
Proof.
  induction 1 as [|[node s] [dest s'] c3 Hstep _ IH]; [done|].
  intros Hknown. apply IH. clear IH. simpl in *. unfold step_rel in Hstep. simpl in Hstep.
  apply step_cases in Hstep
    as [(result & agent_name & Hname & _ & _ & ->) | (m & calls & _ & _ & _ & _ & ->)].
  - unfold known_sender. rewrite apply_update_sender. simpl.
    apply bool_decide_eq_true. rewrite !elem_of_cons.
    destruct Hname as [-> | [-> | ->]]; auto.
  - unfold known_sender in *. by rewrite apply_update_sender.
Qed.

Lemma answers_earlier_call_mono seen more m :
  answers_earlier_call seen m = true → answers_earlier_call (seen ++ more) m = true.
Proof.
  unfold answers_earlier_call. destruct (bool_decide (kind m = ToolMessage)); [|done].
  rewrite existsb_app. by intros ->.
Qed.

Lemma tool_linked_from_app seen l l' :
  tool_linked_from seen (l ++ l') =
  tool_linked_from seen l && tool_linked_from (seen ++ l) l'.
Proof.
  revert seen. induction l as [|m l IH]; intros seen; simpl.
  - by rewrite app_nil_r.
  - rewrite IH, <- app_assoc. simpl. by rewrite andb_assoc.
Qed.

Lemma tool_results_linked seen a calls rest :
  a ∈ seen → kind a = AIMessage → tool_calls a = Some calls → rest ⊆ calls →
  tool_linked_from seen (map (run_tool_call (tools getNews tavNews)) rest) = true.
Proof.
  intros Ha Hkind Hcalls. revert seen Ha.
  induction rest as [|call rest IH]; intros seen Ha Hrest; simpl; [done|].
  apply andb_true_iff. split.
  - unfold answers_earlier_call. simpl.
    apply existsb_exists. exists a. split; [by apply list_elem_of_In|].
    rewrite Hkind, Hcalls. simpl.
    apply existsb_exists. exists call. split.
    + apply list_elem_of_In. apply Hrest. by left.
    + by apply bool_decide_eq_true.
  - apply IH; [set_solver | set_solver].
Qed.

(** X10: when the model's replies are assistant messages, every run keeps
    the tool linkage of the history: each tool message answers, by its
    call identifier, a call of an assistant message that stands earlier in
    the history. *)
Theorem tool_linkage_is_kept c c' :
  (∀ config prompt r, llm config prompt = Normal r → kind r = AIMessage) →
  rtc (step_rel llm getNews tavNews) c c' →
  tool_linked (messages c.2) = true →
  tool_linked (messages c'.2) = true.
Proof.
  intros Hllm. induction 1 as [|[node s] [dest s'] c3 Hstep _ IH]; [done|].
  intros Hlinked. apply IH. clear IH. simpl in *. unfold step_rel in Hstep. simpl in Hstep.
  unfold tool_linked in *.
  apply step_cases in Hstep
    as [(result & agent_name & _ & _ & (config & prompt & Hreply) & ->)
       | (m & calls & _ & Hlast & Hkind & Hcalls & ->)];
    unfold apply_update, messages_reducer; simpl;
    rewrite tool_linked_from_app, Hlinked; simpl.
  - rewrite andb_true_r. unfold answers_earlier_call.
    assert (kind (appended result agent_name) ≠ ToolMessage) as Hkind.
    { unfold appended. destruct (negb _); simpl; [done|].
      by rewrite (Hllm _ _ _ Hreply). }
    by rewrite bool_decide_eq_false_2.
  - eapply tool_results_linked; [|exact Hkind|exact Hcalls|done].
    apply last_Some in Hlast as (l' & ->). set_solver.
Qed.

(** X11: the count of research messages never goes down along a run, so
    once two of them are in the history the router never again answers
    [continue]: no researcher is handed the turn by the other one. *)
Theorem research_count_grows c c' :
  rtc (step_rel llm getNews tavNews) c c' →
  length (researchMessages c.2) ≤ length (researchMessages c'.2) ∧
  (2 ≤ length (researchMessages c.2) → router c'.2 ≠ "continue").
Proof.
  intros Hrun.
  assert (messages c.2 `prefix_of` messages c'.2) as [more Hmore].
  { induction Hrun as [|c1 c2 c3 Hstep _ IH]; [done|].
    etrans; [by eapply step_rel_prefix | done]. }
  assert (length (researchMessages c.2) ≤ length (researchMessages c'.2)) as Hle.
  { unfold researchMessages. rewrite Hmore, List.filter_app, length_app. lia. }
  split; [done|]. intros Hcount.
  destruct (router_cases c'.2) as [[-> _]|[[-> _]|[[-> _]|(_ & _ & _ & Hlt)]]]; try done.
  lia.
Qed.

End Invariants.

Lemma sender_stays_known_witness :
  known_sender
    (apply_update Samples.first_state
       {| u_messages := Some [HumanMessage_from (Samples.reply "findings" []) "SerpResearcher"];
          u_sender := Some "SerpResearcher" |}) = true.
Proof.
  apply (sender_stays_known Samples.plain_llm Samples.getNews Samples.tavNews
           ("SerpResearcher", Samples.first_state)
           ("TavResearcher",
            apply_update Samples.first_state
              {| u_messages :=
                   Some [HumanMessage_from (Samples.reply "findings" []) "SerpResearcher"];
                 u_sender := Some "SerpResearcher" |})).
  - apply rtc_once. reflexivity.
  - reflexivity.
Defined.

Lemma tool_linkage_is_kept_witness :
  let s1 := {| messages := [Samples.user_turn; Samples.reply EmptyString [Samples.search_call]];
               sender := "SerpResearcher" |} in
  tool_linked
    (messages (apply_update s1
       {| u_messages := Some [run_tool_call (tools Samples.getNews Samples.tavNews)
                                            Samples.search_call];
          u_sender := None |})) = true.
Proof.
  cbv zeta.
  apply (tool_linkage_is_kept Samples.searching_llm Samples.getNews Samples.tavNews
           ("call_tool",
            {| messages := [Samples.user_turn;
                            Samples.reply EmptyString [Samples.search_call]];
               sender := "SerpResearcher" |})
           ("SerpResearcher", _)).
  - intros config prompt r [= <-]. reflexivity.
  - apply rtc_once. reflexivity.
  - reflexivity.
Defined.

Lemma research_count_grows_witness :
  let s := {| messages := [ Samples.user_turn;
                            HumanMessage_from (Samples.reply "findings" []) "SerpResearcher";
                            HumanMessage_from (Samples.reply "findings" []) "TavResearcher" ];
              sender := "TavResearcher" |} in
  let s' := apply_update s
              {| u_messages := Some [HumanMessage_from (Samples.reply "findings" []) "Summarizer"];
                 u_sender := Some "Summarizer" |} in
  router s' ≠ "continue".
Proof.
  intros s s'.
  apply (research_count_grows Samples.plain_llm Samples.getNews Samples.tavNews
           ("Summarizer", s) (END, s')).
  - apply rtc_once. reflexivity.
  - simpl. lia.
Defined.

(** ** The cap and the checkpoints *)

Section Checkpoints.

Variable llm : ChatOpenAI.
Variables getNews tavNews : StructuredTool.

Lemma run_saved limit node s out :
  (run llm getNews tavNews limit node s).2 = Normal out →
  (run llm getNews tavNews limit node s).1 = out.
Proof.
  revert node s. induction limit as [|limit IH]; intros node s.
  - rewrite run_0. discriminate.
  - destruct (decide (node = END)) as [->|Hnode].
    + rewrite run_END. simpl. by intros [= ->].
    + rewrite run_S by done.
      destruct (graph_step llm getNews tavNews node s) as [[dest s1]|e];
        [apply IH | discriminate].
Qed.

Lemma run_saved_prefix limit node s :
  messages s `prefix_of` messages (run llm getNews tavNews limit node s).1.
Proof.
  revert node s. induction limit as [|limit IH]; intros node s.
  - by rewrite run_0.
  - destruct (decide (node = END)) as [->|Hnode].
    + by rewrite run_END.
    + rewrite run_S by done.
      destruct (graph_step llm getNews tavNews node s) as [[dest s1]|e] eqn:Hstep; [|done].
      etrans; [|apply IH].
      by apply (step_rel_prefix llm getNews tavNews (node, s) (dest, s1)).
Qed.

(** Raising the step cap never changes a run that ended normally: it
    ends with the same state and the same checkpoint under every larger
    cap. *)
Lemma larger_cap_same_result limit limit' node s out :
  (run llm getNews tavNews limit node s).2 = Normal out →
  limit ≤ limit' →
  run llm getNews tavNews limit' node s = (out, Normal out).
Proof.
  revert limit' node s. induction limit as [|limit IH]; intros limit' node s Hrun Hle.
  - rewrite run_0 in Hrun. discriminate.
  - destruct limit' as [|limit']; [lia|].
    destruct (decide (node = END)) as [->|Hnode].
    + rewrite run_END in *. simpl in Hrun. by injection Hrun as ->.
    + rewrite run_S in * by done.
      destruct (graph_step llm getNews tavNews node s) as [[dest s1]|e]; [|discriminate].
      apply IH; [done | lia].
Qed.

(** X12: after [graph.invoke] the thread's checkpoint extends the history
    it was started with (the loaded history and the input), and it is the
    final state when the run ended normally; the checkpoints of all other
    threads are untouched, and the outcome depends on the memory only
    through the checkpoint of the thread itself. *)
Theorem checkpoint_after_invoke recursionLimit memory thread_id input :
  let started := apply_update (default initial_state (memory !! thread_id)) input in
  let result := graph_invoke llm getNews tavNews recursionLimit memory thread_id input in
  (∃ saved, result.1 !! thread_id = Some saved ∧
            messages started `prefix_of` messages saved ∧
            (∀ out, result.2 = Normal out → saved = out)) ∧
  (∀ other, other ≠ thread_id → result.1 !! other = memory !! other) ∧
  (∀ memory', memory' !! thread_id = memory !! thread_id →
     (graph_invoke llm getNews tavNews recursionLimit memory' thread_id input).2 = result.2).
Proof.
  cbv zeta. unfold graph_invoke.
  split; [|split].
  - pose proof (run_saved_prefix recursionLimit entry_point
                  (apply_update (default initial_state (memory !! thread_id)) input)) as Hpre.
    pose proof (run_saved recursionLimit entry_point
                  (apply_update (default initial_state (memory !! thread_id)) input)) as Hsaved.
    destruct (run _ _ _ _ _ _) as [saved outcome]. simpl in *.
    exists saved. by rewrite lookup_insert_eq.
  - intros other Hother. destruct (run _ _ _ _ _ _) as [saved outcome]. simpl.
    by rewrite lookup_insert_ne.
  - intros memory' ->. by repeat destruct (run _ _ _ _ _ _).
Qed.

End Checkpoints.

Lemma larger_cap_same_result_witness :
  ∃ out, run Samples.plain_llm Samples.getNews Samples.tavNews 25 entry_point
             Samples.first_state = (out, Normal out).
Proof.
  eexists.
  apply (larger_cap_same_result Samples.plain_llm Samples.getNews Samples.tavNews 4 25);
    [reflexivity | lia].
Defined.

Lemma checkpoint_after_invoke_witness :
  (graph_invoke Samples.plain_llm Samples.getNews Samples.tavNews 25
     (<["s2" := Samples.first_state]> ∅) "s1" (turn_input "quantum computing")).1 !! "s2"
  = Some Samples.first_state.
Proof.
  pose proof (checkpoint_after_invoke Samples.plain_llm Samples.getNews Samples.tavNews 25
                (<["s2" := Samples.first_state]> ∅) "s1" (turn_input "quantum computing"))
    as (_ & Hother & _).
  rewrite Hother; [by rewrite lookup_insert_eq | discriminate].
Defined.

(** ** The system prompt of the single-agent servers *)

(** X13: building the outgoing history is idempotent for a prompt that is
    a system message: the result starts with a system message, keeps the
    whole history as its tail end, is at most one message longer, and
    building it again adds nothing. *)
Theorem system_prompt_added_once prompt history :
  kind prompt = SystemMessage →
  with_system_prompt prompt (with_system_prompt prompt history)
    = with_system_prompt prompt history ∧
  (∃ first, head (with_system_prompt prompt history) = Some first ∧
            kind first = SystemMessage) ∧
  history `suffix_of` with_system_prompt prompt history ∧
  length (with_system_prompt prompt history) ≤ S (length history).
Proof.
  intros Hprompt. unfold with_system_prompt.
  destruct history as [|first rest]; simpl.
  - rewrite decide_True by done. repeat split; [by exists prompt | by exists [prompt] | lia].
  - destruct (decide (kind first = SystemMessage)) as [Hfirst|Hfirst]; simpl.
    + rewrite decide_True by done. repeat split; [by exists first | done | lia].
    + rewrite decide_True by done. repeat split; [by exists prompt | by exists [prompt] | lia].
Qed.

Lemma system_prompt_added_once_witness :
  with_system_prompt ToolAgent.systemPrompt
    (with_system_prompt ToolAgent.systemPrompt [new_HumanMessage "hi"])
  = with_system_prompt ToolAgent.systemPrompt [new_HumanMessage "hi"].
Proof.
  apply (system_prompt_added_once ToolAgent.systemPrompt [new_HumanMessage "hi"]).
  reflexivity.
Defined.

(** ** The replies of the other servers *)

Lemma news_or_nonempty formatted output : news_or formatted output ≠ Text EmptyString.
Proof.
  unfold news_or.
  destruct formatted as [[|a f]|]; [|done|];
    (destruct output as [msgs|]; simpl; [|done];
     destruct (last msgs) as [m|]; simpl; [|done];
     by destruct (content m) as [[|b c]|bs]).
Qed.

(** X14: in the server that replies in plain prose the output is read
    without a guard.  A lookup whose agent run fails is therefore answered
    with [Oops, something went wrong!] (the missing output cannot be
    dereferenced), and a completed run is answered with the content of its
    last message exactly as it is, the empty string included. *)
Theorem plain_server_replies num app raw command topic session_id text :
  read_request raw = Normal (command, topic, session_id) →
  strict_equals command "lookup news" = true →
  template num topic = Normal text →
  ((∃ e, app ("Get news about: " +:+ text) session_id = Throw e) →
   PlainServer.on_message num app raw = Some (Text "Oops, something went wrong!")) ∧
  (∀ msgs m, app ("Get news about: " +:+ text) session_id = Normal msgs →
             last msgs = Some m →
             PlainServer.on_message num app raw = Some (content m)).
Proof.
  intros Hread Hcommand Htopic.
  unfold PlainServer.on_message, PlainServer.generateNews, PlainServer.last_content.
  unfold_bind. rewrite Hread, Hcommand, Htopic. split.
  - by intros [e ->].
  - intros msgs m -> Hlast. simpl. by rewrite Hlast.
Qed.

Lemma plain_server_replies_witness :
  PlainServer.on_message Samples.lexeme_numbers MoreSamples.failing_app Samples.lookup_request
    = Some (Text "Oops, something went wrong!") ∧
  PlainServer.on_message Samples.lexeme_numbers
    (MoreSamples.answering_app (Text EmptyString)) Samples.lookup_request
    = Some (Text EmptyString).
Proof.
  split.
  - eapply (plain_server_replies Samples.lexeme_numbers MoreSamples.failing_app
              Samples.lookup_request).
    + vm_compute. reflexivity.
    + reflexivity.
    + reflexivity.
    + by eexists.
  - pose proof (plain_server_replies Samples.lexeme_numbers
                  (MoreSamples.answering_app (Text EmptyString)) Samples.lookup_request
                  (Some (JString "lookup news")) (Some (JString "quantum computing"))
                  (Some (JString "s1")) "quantum computing") as H.
    destruct H as (_ & Hdone); [by vm_compute | reflexivity | reflexivity |].
    by rewrite (Hdone _ _ eq_refl eq_refl).
Defined.

(** X15: the server of the tool-bound agent (and the compiled multi-agent
    server, which has the same handler) guards every read: a failed run,
    an output without messages and an empty last content are all
    answered with [No response available]; any other last content is
    sent as it is; the empty string is never sent. *)
Theorem guarded_server_replies num app raw command topic session_id text :
  read_request raw = Normal (command, topic, session_id) →
  strict_equals command "lookup news" = true →
  template num topic = Normal text →
  ((∃ e, app ("report current events about: " +:+ text) session_id = Throw e) →
   ToolAgentServer.on_message num app raw = Some (Text "No response available")) ∧
  (∀ msgs, app ("report current events about: " +:+ text) session_id = Normal msgs →
     ToolAgentServer.on_message num app raw =
       Some (match content <$> last msgs with
             | Some (Text EmptyString) | None => Text "No response available"
             | Some c => c
             end)) ∧
  ToolAgentServer.on_message num app raw ≠ Some (Text EmptyString).
Proof.
  intros Hread Hcommand Htopic.
  unfold ToolAgentServer.on_message, ToolAgentServer.generateNews.
  unfold_bind. rewrite Hread, Hcommand, Htopic. split; [|split].
  - by intros [e ->].
  - intros msgs ->. simpl. unfold news_or. simpl.
    destruct (last msgs) as [m|]; simpl; [|done].
    by destruct (content m) as [[|b c]|bs].
  - cbv [try_catch].
    match goal with
    | |- Some (news_or ?f ?o) ≠ _ => intros H; apply (news_or_nonempty f o); congruence
    end.
Qed.

Lemma guarded_server_replies_witness :
  ToolAgentServer.on_message Samples.lexeme_numbers MoreSamples.failing_app
    Samples.lookup_request = Some (Text "No response available") ∧
  ToolAgentServer.on_message Samples.lexeme_numbers
    (MoreSamples.answering_app (Text EmptyString)) Samples.lookup_request
    = Some (Text "No response available").
Proof.
  split.
  - eapply (guarded_server_replies Samples.lexeme_numbers MoreSamples.failing_app
              Samples.lookup_request).
    + vm_compute. reflexivity.
    + reflexivity.
    + reflexivity.
    + by eexists.
  - pose proof (guarded_server_replies Samples.lexeme_numbers
                  (MoreSamples.answering_app (Text EmptyString)) Samples.lookup_request
                  (Some (JString "lookup news")) (Some (JString "quantum computing"))
                  (Some (JString "s1")) "quantum computing") as H.
    destruct H as (_ & Hdone & _); [by vm_compute | reflexivity | reflexivity |].
    by rewrite (Hdone _ eq_refl).
Defined.

Lemma formatReportFromJSON_renders num members headline summary kps items insights conclusion :
  own_property "headline" members = Some (JString headline) →
  own_property "summary" members = Some (JString summary) →
  own_property "key_points" members = Some (JArray kps) →
  titled_items "point" "details" kps items →
  own_property "insights" members = Some (JString insights) →
  own_property "conclusion" members = Some (JString conclusion) →
  ReportServer.formatReportFromJSON num (Some (JObject members)) =
    Normal ("# " +:+ headline +:+ nl +:+ nl +:+
            summary +:+ nl +:+ nl +:+
            "## Key Points" +:+ nl +:+ nl +:+
            rendered_points items +:+
            "## Insights" +:+ nl +:+ nl +:+ insights +:+ nl +:+ nl +:+
            "## Conclusion" +:+ nl +:+ nl +:+ conclusion).
Proof.
  intros Hh Hs Hk Hitems Hi Hc. unfold ReportServer.formatReportFromJSON.
  rewrite (template_member_string _ _ _ _ Hh), (template_member_string _ _ _ _ Hs),
    (template_member_string _ _ _ _ Hi), (template_member_string _ _ _ _ Hc).
  unfold get_member. rewrite Hk. unfold_bind. cbn [iterate].
  rewrite (key_points_loop_renders _ _ _ _ Hitems).
  by rewrite !append_assoc.
Qed.

(** X16: in the server that asks for a JSON report, when the last content
    of a completed run parses to an object whose [report] has string
    [headline], [summary], [insights] and [conclusion] and an array of
    [point]/[details] objects as [key_points], the caller receives the
    report in the fixed layout, not the raw JSON text. *)
Theorem report_server_delivers_report
    num app raw command topic session_id text msgs m c top members
    headline summary kps items insights conclusion :
  read_request raw = Normal (command, topic, session_id) →
  strict_equals command "lookup news" = true →
  template num topic = Normal text →
  app ("Get news about: " +:+ text) session_id = Normal msgs →
  last msgs = Some m →
  content m = Text c →
  JSON_parse c = Normal (JObject top) →
  own_property "report" top = Some (JObject members) →
  own_property "headline" members = Some (JString headline) →
  own_property "summary" members = Some (JString summary) →
  own_property "key_points" members = Some (JArray kps) →
  titled_items "point" "details" kps items →
  own_property "insights" members = Some (JString insights) →
  own_property "conclusion" members = Some (JString conclusion) →
  ReportServer.on_message num app raw =
    Some (Text ("# " +:+ headline +:+ nl +:+ nl +:+
                summary +:+ nl +:+ nl +:+
                "## Key Points" +:+ nl +:+ nl +:+
                rendered_points items +:+
                "## Insights" +:+ nl +:+ nl +:+ insights +:+ nl +:+ nl +:+
                "## Conclusion" +:+ nl +:+ nl +:+ conclusion)).
Proof.
  intros Hread Hcommand Htopic Happ Hlast Hcontent Hparse Hreport Hh Hs Hk Hitems Hi Hc.
  unfold ReportServer.on_message, ReportServer.generateNews, ReportServer.format_final.
  unfold_bind. rewrite Hread, Hcommand, Htopic, Happ, Hlast, Hcontent, Hparse.
  unfold get_member. rewrite Hreport. cbn [truthy].
  rewrite (formatReportFromJSON_renders _ _ _ _ _ _ _ _ Hh Hs Hk Hitems Hi Hc).
  reflexivity.
Qed.

Lemma report_server_delivers_report_witness :
  ReportServer.on_message Samples.lexeme_numbers
    (MoreSamples.answering_app (Text MoreSamples.full_report)) Samples.lookup_request =
    Some (Text ("# " +:+ "X" +:+ nl +:+ nl +:+ "O" +:+ nl +:+ nl +:+
                "## Key Points" +:+ nl +:+ nl +:+
                rendered_points [("A", "B")] +:+
                "## Insights" +:+ nl +:+ nl +:+ "I" +:+ nl +:+ nl +:+
                "## Conclusion" +:+ nl +:+ nl +:+ "C")).
Proof.
  eapply (report_server_delivers_report Samples.lexeme_numbers
            (MoreSamples.answering_app (Text MoreSamples.full_report)) Samples.lookup_request
            (Some (JString "lookup news")) (Some (JString "quantum computing"))
            (Some (JString "s1")) "quantum computing" _ _ MoreSamples.full_report _ _
            "X" "O" [string_pair "point" "details" ("A", "B")] [("A", "B")] "I" "C").
  - by vm_compute.
  - reflexivity.
  - reflexivity.
  - reflexivity.
  - reflexivity.
  - reflexivity.
  - vm_compute. reflexivity.
  - reflexivity.
  - reflexivity.
  - reflexivity.
  - reflexivity.
  - constructor; [|constructor]. eexists. repeat split; reflexivity.
  - reflexivity.
  - reflexivity.
Defined.

Lemma developments_loop_renders num devs items formatted :
  titled_items "development" "significance" devs items →
  AnalysisServer.developments_loop num devs formatted
    = Normal (formatted +:+ rendered_points items).
Proof.
  intros Hitems. revert formatted.
  induction Hitems as [|dev [title detail] devs items (members & -> & Hp & Hd) _ IH];
    intros formatted.
  - simpl. by rewrite append_EmptyString.
  - cbn [AnalysisServer.developments_loop rendered_points].
    rewrite (template_member_string _ _ _ _ Hp), (template_member_string _ _ _ _ Hd).
    unfold_bind. rewrite IH. by rewrite !append_assoc.
Qed.

(** X17: for an analysis object whose [headline], [summary], [context] and
    [outlook] are strings and whose [key_developments] is an array of
    objects with string [development] and [significance], the analysis
    formatter returns the fixed layout: headline, summary, the
    developments in order, context, outlook. *)
Theorem formatAnalysisFromJSON_renders num members headline summary devs items context outlook :
  own_property "headline" members = Some (JString headline) →
  own_property "summary" members = Some (JString summary) →
  own_property "key_developments" members = Some (JArray devs) →
  titled_items "development" "significance" devs items →
  own_property "context" members = Some (JString context) →
  own_property "outlook" members = Some (JString outlook) →
  AnalysisServer.formatAnalysisFromJSON num (Some (JObject members)) =
    Normal ("# " +:+ headline +:+ nl +:+ nl +:+
            summary +:+ nl +:+ nl +:+
            "## Key Developments" +:+ nl +:+ nl +:+
            rendered_points items +:+
            "## Context" +:+ nl +:+ nl +:+ context +:+ nl +:+ nl +:+
            "## Outlook" +:+ nl +:+ nl +:+ outlook).
Proof.
  intros Hh Hs Hk Hitems Hc Ho. unfold AnalysisServer.formatAnalysisFromJSON.
  rewrite (template_member_string _ _ _ _ Hh), (template_member_string _ _ _ _ Hs),
    (template_member_string _ _ _ _ Hc), (template_member_string _ _ _ _ Ho).
  unfold get_member. rewrite Hk. unfold_bind. cbn [iterate].
  rewrite (developments_loop_renders _ _ _ _ Hitems).
  by rewrite !append_assoc.
Qed.

Lemma formatAnalysisFromJSON_renders_witness :
  AnalysisServer.formatAnalysisFromJSON Samples.lexeme_numbers
    (Some (JObject [ ("headline", JString "X"); ("summary", JString "S");
                     ("key_developments",
                      JArray [string_pair "development" "significance" ("D", "G")]);
                     ("context", JString "C"); ("outlook", JString "U") ])) =
    Normal ("# " +:+ "X" +:+ nl +:+ nl +:+ "S" +:+ nl +:+ nl +:+
            "## Key Developments" +:+ nl +:+ nl +:+
            rendered_points [("D", "G")] +:+
            "## Context" +:+ nl +:+ nl +:+ "C" +:+ nl +:+ nl +:+
            "## Outlook" +:+ nl +:+ nl +:+ "U").
Proof.
  apply (formatAnalysisFromJSON_renders Samples.lexeme_numbers _ "X" "S"
           [string_pair "development" "significance" ("D", "G")] [("D", "G")] "C" "U");
    try reflexivity.
  constructor; [|constructor]. eexists. repeat split; reflexivity.
Defined.

(** X18: in the server that asks for a JSON analysis, a lookup whose agent
    run fails is answered with [No response available]; a completed run
    whose last content does not parse as JSON is answered with that
    content unless it is empty; the empty string is never sent. *)
Theorem analysis_server_falls_back num app raw command topic session_id text :
  read_request raw = Normal (command, topic, session_id) →
  strict_equals command "lookup news" = true →
  template num topic = Normal text →
  ((∃ e, app ("report current events about: " +:+ text) session_id = Throw e) →
   AnalysisServer.on_message num app raw = Some (Text "No response available")) ∧
  (∀ msgs m c e,
     app ("report current events about: " +:+ text) session_id = Normal msgs →
     last msgs = Some m → content m = Text c → JSON_parse c = Throw e →
     AnalysisServer.on_message num app raw =
       Some (Text (if nonempty c then c else "No response available"))) ∧
  AnalysisServer.on_message num app raw ≠ Some (Text EmptyString).
Proof.
  intros Hread Hcommand Htopic.
  unfold AnalysisServer.on_message, AnalysisServer.generateNews. unfold_bind.
  rewrite Hread, Hcommand, Htopic. split; [|split].
  - by intros [e ->].
  - intros msgs m c e -> Hlast Hcontent Hparse. cbv [try_catch].
    cbn [AnalysisServer.output AnalysisServer.formattedAnalysis].
    rewrite Hlast, Hcontent. unfold AnalysisServer.format_final. unfold_bind.
    rewrite Hparse. cbv [try_catch]. unfold news_or. simpl. rewrite Hlast. simpl.
    rewrite Hcontent. by destruct c.
  - cbv [try_catch].
    match goal with
    | |- Some (news_or ?f ?o) ≠ _ => intros H; apply (news_or_nonempty f o); congruence
    end.
Qed.

Lemma analysis_server_falls_back_witness :
  AnalysisServer.on_message Samples.lexeme_numbers MoreSamples.failing_app
    Samples.lookup_request = Some (Text "No response available").
Proof.
  eapply (analysis_server_falls_back Samples.lexeme_numbers MoreSamples.failing_app
            Samples.lookup_request).
  - vm_compute. reflexivity.
  - reflexivity.
  - reflexivity.
  - by eexists.
Defined.

(** ** How a run ends and what the next turn sees *)

Section Endings.

Variable llm : ChatOpenAI.
Variables getNews tavNews : StructuredTool.

Lemma router_end_inv s : router s = "end" →
  has_tool_calls (last (messages s)) = false ∧ sender s = "Summarizer".
Proof.
  intros Hr.
  destruct (router_cases s) as [[H _]|[[_ H]|[[H _]|[H _]]]]; [congruence | done | congruence..].
Qed.

Lemma step_to_END node s out :
  graph_step llm getNews tavNews node s = Normal (END, out) →
  node = "Summarizer" ∧
  ∃ r, summarizerAgent llm s = Normal r ∧
       has_tool_calls (Some r) = false ∧
       out = apply_update s {| u_messages := Some [HumanMessage_from r "Summarizer"];
                               u_sender := Some "Summarizer" |}.
Proof.
  intros (f & u & Hf & Hrun & -> & Hnext)%graph_step_inv.
  apply nodes_inv in Hf as [[-> ->]|[[-> ->]|[[-> ->]|[-> ->]]]].
  - rewrite next_node_SerpResearcher in Hnext.
    destruct (lookup_key _ _) as [dest|] eqn:Hdest; [|discriminate].
    injection Hnext as ->.
    apply lookup_key_In in Hdest as [[=]|[[=]|[[=]|[[= Hr]|[]]]]].
    symmetry in Hr. apply router_end_inv in Hr as [_ Hsender].
    apply runAgentNode_inv in Hrun as (result & _ & ->).
    rewrite apply_update_sender in Hsender. discriminate.
  - rewrite next_node_TavResearcher in Hnext.
    destruct (lookup_key _ _) as [dest|] eqn:Hdest; [|discriminate].
    injection Hnext as ->.
    apply lookup_key_In in Hdest as [[=]|[[=]|[[=]|[[= Hr]|[]]]]].
    symmetry in Hr. apply router_end_inv in Hr as [_ Hsender].
    apply runAgentNode_inv in Hrun as (result & _ & ->).
    rewrite apply_update_sender in Hsender. discriminate.
  - split; [done|].
    rewrite next_node_Summarizer in Hnext.
    destruct (lookup_key _ _) as [dest|] eqn:Hdest; [|discriminate].
    apply lookup_key_In in Hdest as [[= Hr _]|[]].
    symmetry in Hr. apply router_end_inv in Hr as [Hcalls _].
    apply runAgentNode_inv in Hrun as (result & Hreply & ->).
    rewrite last_snoc_update, appended_has_tool_calls in Hcalls.
    exists result. split; [done|]. split; [done|]. unfold appended. by rewrite Hcalls.
  - rewrite next_node_call_tool in Hnext.
    destruct (lookup_key _ _) as [dest|] eqn:Hdest; [|discriminate].
    injection Hnext as ->.
    by apply lookup_key_In in Hdest as [[=]|[[=]|[]]].
Qed.

Lemma rtc_step_prefix c c' :
  rtc (step_rel llm getNews tavNews) c c' → messages c.2 `prefix_of` messages c'.2.
Proof.
  induction 1 as [|c1 c2 c3 Hstep _ IH]; [done|].
  etrans; [by eapply step_rel_prefix | done].
Qed.

(** X19: a run ends normally only through the summarizer: its last step
    is the summarizer's, made on a state [previous] that extends the start
    history; the summarizer's model reply [r] on that state carries no tool
    calls, and the final state is [previous] plus one human message under
    the name [Summarizer] with the content of [r], with [Summarizer] as
    sender.  So the last message of every completed run is the
    summarizer's reply. *)
Theorem run_ends_with_summarizer limit node s out :
  node ≠ END →
  (run llm getNews tavNews limit node s).2 = Normal out →
  ∃ previous r,
    messages s `prefix_of` messages previous ∧
    summarizerAgent llm previous = Normal r ∧
    has_tool_calls (Some r) = false ∧
    graph_step llm getNews tavNews "Summarizer" previous = Normal (END, out) ∧
    out = apply_update previous
            {| u_messages := Some [HumanMessage_from r "Summarizer"];
               u_sender := Some "Summarizer" |} ∧
    last (messages out) = Some (HumanMessage_from r "Summarizer") ∧
    (content <$> last (messages out)) = Some (content r) ∧
    sender out = "Summarizer".
Proof.
  intros Hnode (k & _ & Hsteps)%run_normal_iff.
  destruct k as [|k]; [by inversion Hsteps; subst|].
  apply nsteps_inv_r in Hsteps as ([node' previous] & Hbefore & Hlast).
  unfold step_rel in Hlast. simpl in Hlast.
  pose proof Hlast as (-> & r & Hreply & Hcalls & ->)%step_to_END.
  exists previous, r. split.
  - apply rtc_nsteps_2 in Hbefore. by apply rtc_step_prefix in Hbefore.
  - split; [done|]. split; [done|]. split; [done|]. split; [done|].
    rewrite last_snoc_update, apply_update_sender. by repeat split.
Qed.

Lemma graph_invoke_checkpoint recursionLimit memory thread_id input :
  ∃ saved,
    (graph_invoke llm getNews tavNews recursionLimit memory thread_id input).1 !! thread_id
      = Some saved ∧
    messages (apply_update (default initial_state (memory !! thread_id)) input)
      `prefix_of` messages saved ∧
    (∀ out, (graph_invoke llm getNews tavNews recursionLimit memory thread_id input).2
              = Normal out → saved = out).
Proof.
  unfold graph_invoke.
  pose proof (run_saved_prefix llm getNews tavNews recursionLimit entry_point
                (apply_update (default initial_state (memory !! thread_id)) input)) as Hpre.
  pose proof (run_saved llm getNews tavNews recursionLimit entry_point
                (apply_update (default initial_state (memory !! thread_id)) input)) as Hsaved.
  destruct (run _ _ _ _ _ _) as [saved outcome]. simpl in *.
  exists saved. by rewrite lookup_insert_eq.
Qed.

(** X20: a follow-up turn on the same thread sees the whole conversation
    so far: when a turn ended normally with the state [out], the next
    call on that thread starts from the history of [out] followed by the
    new input, and whatever that call does, the thread's checkpoint
    afterwards still begins with that history. *)
Theorem follow_up_sees_history recursionLimit memory thread_id input out text :
  (graph_invoke llm getNews tavNews recursionLimit memory thread_id input).2 = Normal out →
  let memory' := (graph_invoke llm getNews tavNews recursionLimit memory thread_id input).1 in
  let next := graph_invoke llm getNews tavNews recursionLimit memory' thread_id
                           (turn_input text) in
  memory' !! thread_id = Some out ∧
  next.2 = (run llm getNews tavNews recursionLimit entry_point
                (apply_update out (turn_input text))).2 ∧
  ∃ saved, next.1 !! thread_id = Some saved ∧
    (messages out ++ [new_HumanMessage ("report current events about: " +:+ text)])
      `prefix_of` messages saved.
Proof.
  intros Hout. cbv zeta.
  destruct (graph_invoke_checkpoint recursionLimit memory thread_id input)
    as (saved & Hsaved & _ & Hsame).
  rewrite (Hsame out Hout) in Hsaved.
  split; [done|]. split.
  - unfold graph_invoke at 1. rewrite Hsaved. simpl. by destruct (run _ _ _ _ _ _).
  - destruct (graph_invoke_checkpoint recursionLimit
                (graph_invoke llm getNews tavNews recursionLimit memory thread_id input).1
                thread_id (turn_input text)) as (saved2 & Hsaved2 & Hpre & _).
    exists saved2. split; [done|]. by rewrite Hsaved in Hpre.
Qed.

End Endings.

Lemma run_ends_with_summarizer_witness :
  ∃ previous r,
    summarizerAgent Samples.plain_llm previous = Normal r ∧
    [ Samples.user_turn;
      HumanMessage_from (Samples.reply "findings" []) "SerpResearcher";
      HumanMessage_from (Samples.reply "findings" []) "TavResearcher";
      HumanMessage_from (Samples.reply "findings" []) "Summarizer" ]
      = messages (apply_update previous
                    {| u_messages := Some [HumanMessage_from r "Summarizer"];
                       u_sender := Some "Summarizer" |}).
Proof.
  destruct (run_ends_with_summarizer Samples.plain_llm Samples.getNews Samples.tavNews
              25 entry_point Samples.first_state
              {| messages :=
                   [ Samples.user_turn;
                     HumanMessage_from (Samples.reply "findings" []) "SerpResearcher";
                     HumanMessage_from (Samples.reply "findings" []) "TavResearcher";
                     HumanMessage_from (Samples.reply "findings" []) "Summarizer" ];
                 sender := "Summarizer" |})
    as (previous & r & _ & Hreply & _ & _ & Hout & _); [done | reflexivity |].
  exists previous, r. split; [done|]. by rewrite <- Hout.
Defined.

Lemma follow_up_sees_history_witness :
  ∃ out,
    (graph_invoke Samples.plain_llm Samples.getNews Samples.tavNews 25 ∅ "s1"
                  (turn_input "quantum computing")).1 !! "s1" = Some out.
Proof.
  eexists.
  eapply (follow_up_sees_history Samples.plain_llm Samples.getNews Samples.tavNews 25 ∅ "s1"
            (turn_input "quantum computing") _ "more").
  vm_compute. reflexivity.
Defined.

(** ** System messages in the histories of a run *)










